(** * SleepHealthAnalyzer (project.py): a shallow embedding and its properties

    The program reads one CSV file into a pandas frame, drops incomplete
    rows, derives a sleep-quality category with [pd.cut], and then serves
    a three-entry text menu: a Tk table of the first 200 rows, a suite of
    four charts, and exit.

    Modelling choices, all visible in the definitions below:
    - a Python [str] is a list of Unicode code points;
    - a number cell of a frame is written as a rational; the arithmetic
      on a column is numpy's: an int64 column is reduced in int64, with
      wrap-around, everything else in IEEE 754 binary64 with rounding to
      nearest, and dividing by zero yields a non-finite value and raises
      nothing;
    - the dialog, the Tk widgets, the console and the charts shown are
      recorded as events in the order the code issues them; the GUI calls
      are taken to return, the data-bound plotting calls raise
      [ValueError] on a frame they reject;
    - [pd.read_csv] and [textwrap.fill] are parameters of the model. *)

From Stdlib Require Import String Ascii List Bool Arith NArith ZArith QArith Qminmax Lia Lqa.
From Stdlib Require Import SpecFloat.
Import ListNotations.
Close Scope Q_scope.

Set Implicit Arguments.

(** ** Python text *)

Module Py.

(** A Python [str]: its code points. *)
Definition str := list N.

(** Decoding of the UTF-8 bytes of a literal of the source file:
    [need] continuation bytes are still owed to the code point [acc]. *)
Fixpoint decode (bytes : list N) (acc : N) (need : nat) : str :=
  match bytes with
  | [] => []
  | b :: rest =>
      match need with
      | S n =>
          let acc' := (acc * 64 + b mod 64)%N in
          match n with
          | O => acc' :: decode rest 0%N O
          | S _ => decode rest acc' n
          end
      | O =>
          if (b <? 128)%N then b :: decode rest 0%N O
          else if (b <? 224)%N then decode rest (b mod 32)%N 1
          else if (b <? 240)%N then decode rest (b mod 16)%N 2
          else decode rest (b mod 8)%N 3
      end
  end.

(** [u "..."] is the Python literal ["..."]. *)
Definition u (literal : string) : str :=
  decode (map N_of_ascii (list_ascii_of_string literal)) 0%N O.

Fixpoint eqb (a b : str) : bool :=
  match a, b with
  | [], [] => true
  | x :: a', y :: b' => (x =? y)%N && eqb a' b'
  | _, _ => false
  end.

(** [str.isspace] on one code point (CPython's [_PyUnicode_IsWhitespace]). *)
Definition isspace (c : N) : bool :=
  ((9 <=? c) && (c <=? 13) || (28 <=? c) && (c <=? 32)
   || (c =? 133) || (c =? 160) || (c =? 5760)
   || (8192 <=? c) && (c <=? 8202)
   || (c =? 8232) || (c =? 8233) || (c =? 8239) || (c =? 8287)
   || (c =? 12288))%N.

Fixpoint lstrip (s : str) : str :=
  match s with
  | c :: s' => if isspace c then lstrip s' else s
  | [] => []
  end.

Definition rstrip (s : str) : str := rev (lstrip (rev s)).

(** [s.strip()] *)
Definition strip (s : str) : str := rstrip (lstrip s).

End Py.

Abbreviation u := Py.u.

(** ** Cells, frames and the pandas operations the program calls *)

(** A cell of a frame: a number, a text, or a missing value (NaN). *)
Inductive value : Type :=
| Num (q : Q)
| Str (s : Py.str)
| NA.

Definition notna (v : value) : bool :=
  match v with NA => false | _ => true end.

(** A frame, row by row; [columns] are the labels of the positions of a
    row.  A frame built by [pd.read_csv] is rectangular ([rectangular]). *)
Record DataFrame : Type := mkFrame {
  columns : list Py.str;
  rows : list (list value)
}.

Definition rectangular (d : DataFrame) : bool :=
  forallb (fun r => length r =? length (columns d)) (rows d).

(** [pd.DataFrame()] *)
Definition DataFrame_new : DataFrame := mkFrame [] [].

(** [df.empty]: some axis has length zero. *)
Definition empty (d : DataFrame) : bool :=
  (length (columns d) =? 0) || (length (rows d) =? 0).

(** [df.dropna()]: keep the rows without a missing value. *)
Definition dropna (d : DataFrame) : DataFrame :=
  mkFrame (columns d) (filter (forallb notna) (rows d)).

(** [df.head(n)] *)
Definition head (n : nat) (d : DataFrame) : DataFrame :=
  mkFrame (columns d) (firstn n (rows d)).

(** [df.itertuples(index=False)] *)
Definition itertuples (d : DataFrame) : list (list value) := rows d.

(** Position of the first column labelled [name]. *)
Fixpoint col_index (name : Py.str) (cols : list Py.str) : option nat :=
  match cols with
  | [] => None
  | c :: cols' =>
      if Py.eqb c name then Some O
      else option_map S (col_index name cols')
  end.

(** The exceptions the modelled code can meet. *)
Inductive exn : Type :=
| KeyError (key : Py.str)
| TypeError
| ValueError
| AttributeError (attr : Py.str)
| EOFError.

Inductive outcome (A : Type) : Type :=
| Return (a : A)
| Raise (e : exn).
Arguments Raise {A} e.

Definition obind {A B} (c : outcome A) (k : A -> outcome B) : outcome B :=
  match c with
  | Return a => k a
  | Raise e => Raise e
  end.

(** [df[name]]: the column as a list of cells, [KeyError] if absent. *)
Definition getitem (d : DataFrame) (name : Py.str) : outcome (list value) :=
  match col_index name (columns d) with
  | Some j => Return (map (fun r => nth j r NA) (rows d))
  | None => Raise (KeyError name)
  end.

Fixpoint set_nth (j : nat) (v : value) (r : list value) : list value :=
  match r, j with
  | [], _ => []
  | _ :: r', O => v :: r'
  | x :: r', S j' => x :: set_nth j' v r'
  end.

(** [df[name] = vals]: overwrite the column if it exists, else append it. *)
Definition setitem (d : DataFrame) (name : Py.str) (vals : list value) : DataFrame :=
  match col_index name (columns d) with
  | Some j =>
      mkFrame (columns d)
              (map (fun rv => set_nth j (snd rv) (fst rv)) (combine (rows d) vals))
  | None =>
      mkFrame (columns d ++ [name])
              (map (fun rv => fst rv ++ [snd rv]) (combine (rows d) vals))
  end.

(** ** numpy scalars *)

(** A float64 is an IEEE 754 binary64 value, with the operations of the
    library's specification of that format (round to nearest, ties to
    even; division by zero gives an infinity or NaN and raises
    nothing). *)
Definition float64 : Type := spec_float.
Definition prec : Z := 53.
Definition emax : Z := 1024.

Definition f_add : float64 -> float64 -> float64 := SFadd prec emax.
Definition f_sub : float64 -> float64 -> float64 := SFsub prec emax.
Definition f_mul : float64 -> float64 -> float64 := SFmul prec emax.
Definition f_div : float64 -> float64 -> float64 := SFdiv prec emax.
Definition f_max (a b : float64) : float64 := if SFltb a b then b else a.
Definition f_min (a b : float64) : float64 := if SFltb b a then b else a.

(** The float64 nearest to an integer. *)
Definition of_Z (z : Z) : float64 := binary_normalize prec emax z 0 false.

(** The float64 nearest to a rational: the quotient is cut after more
    than 64 binary digits, a last digit records whether anything was cut
    off, and the result is rounded once. *)
Definition of_Q (q : Q) : float64 :=
  let n := Qnum q in
  let d := Zpos (Qden q) in
  if (n =? 0)%Z then S754_zero false
  else
    let k := Z.max 0 (64 + Z.log2 d - Z.log2 (Z.abs n)) in
    let a := (Z.abs n * 2 ^ k)%Z in
    let m := (2 * (a / d) + (if a mod d =? 0 then 0 else 1))%Z in
    binary_normalize prec emax (if n <? 0 then - m else m)%Z (- k - 1) false.

(** A float64 as a chart or a reader of the trace sees it: its exact
    value as a rational in lowest terms (the sign of a zero is not kept),
    or one of the non-finite values. *)
Inductive npfloat : Type :=
| Fin (q : Q)
| PosInf
| NegInf
| NaN.

Definition observe (x : float64) : npfloat :=
  match x with
  | S754_zero _ => Fin 0%Q
  | S754_infinity false => PosInf
  | S754_infinity true => NegInf
  | S754_nan => NaN
  | S754_finite s m e =>
      let v := if s then Z.neg m else Z.pos m in
      Fin (Qred (if (0 <=? e)%Z then inject_Z (v * 2 ^ e)
                 else Qmake v (Z.to_pos (2 ^ (- e)))))
  end.

Definition Qltb (x y : Q) : bool := negb (Qle_bool y x).

Definition isfinite (x : npfloat) : bool :=
  match x with Fin _ => true | _ => false end.

(** An int64 result wraps around. *)
Definition wrap64 (z : Z) : Z := ((z + 2 ^ 63) mod 2 ^ 64 - 2 ^ 63)%Z.

(** What a reduction of a numeric column returns: [np.int64] for an
    int64 column, [np.float64] otherwise. *)
Inductive scalar : Type :=
| Int64 (z : Z)
| Float64 (x : float64).

Definition to_float64 (a : scalar) : float64 :=
  match a with
  | Int64 z => of_Z z
  | Float64 x => x
  end.

(** [a - b] on numpy scalars: int64 when both are, float64 otherwise. *)
Definition scalar_sub (a b : scalar) : scalar :=
  match a, b with
  | Int64 x, Int64 y => Int64 (wrap64 (x - y))
  | _, _ => Float64 (f_sub (to_float64 a) (to_float64 b))
  end.

(** ** Series reductions ([skipna=True])

    The reductions are pandas' own ([nanops] over numpy; the optional
    bottleneck package is not taken to be installed). *)

(** The cells of a numeric column, [None] for a missing value; a text
    cell makes the reductions of the normalization raise [TypeError]. *)
Fixpoint numbers (col : list value) : outcome (list (option Q)) :=
  match col with
  | [] => Return []
  | Num q :: col' => obind (numbers col') (fun xs => Return (Some q :: xs))
  | NA :: col' => obind (numbers col') (fun xs => Return (None :: xs))
  | Str _ :: _ => Raise TypeError
  end.

(** The values that are not missing. *)
Fixpoint present (xs : list (option Q)) : list Q :=
  match xs with
  | [] => []
  | Some q :: xs' => q :: present xs'
  | None :: xs' => present xs'
  end.

(** The dtype of a column is read off its cells: a number written with
    denominator 1 and within the int64 range is an integer cell, any
    other number a float64 cell (1.0 is written 2 # 2); a column of
    integer cells is an int64 column, any other column of numbers,
    and every column with a missing value, is a float64 column, and a
    number in it stands for the float64 nearest to it ([of_Q]). *)
Definition is_int64 (q : Q) : bool :=
  (Qden q =? 1)%positive && (- 2 ^ 63 <=? Qnum q)%Z && (Qnum q <? 2 ^ 63)%Z.

Definition int64_column (xs : list (option Q)) : bool :=
  forallb (fun x => match x with Some q => is_int64 q | None => false end) xs.

(** [max()] and [min()]: of the values that are not missing; NaN when
    there is none. *)
Definition max_of (xs : list (option Q)) : scalar :=
  match present xs with
  | [] => Float64 S754_nan
  | x :: rest =>
      if int64_column xs then Int64 (fold_left Z.max (map Qnum rest) (Qnum x))
      else Float64 (fold_left f_max (map of_Q rest) (of_Q x))
  end.

Definition min_of (xs : list (option Q)) : scalar :=
  match present xs with
  | [] => Float64 S754_nan
  | x :: rest =>
      if int64_column xs then Int64 (fold_left Z.min (map Qnum rest) (Qnum x))
      else Float64 (fold_left f_min (map of_Q rest) (of_Q x))
  end.

(** The elements at the positions j, j + 8, j + 16, ... *)
Fixpoint every_8th (j : nat) (a : list float64) : list float64 :=
  match a with
  | [] => []
  | x :: a' =>
      match j with
      | O => x :: every_8th 7 a'
      | S j' => every_8th j' a'
      end
  end.

(** numpy's [pairwise_sum] of float64: fewer than 8 addends are added
    from left to right; up to 128 go into eight running sums that are
    then added in pairs, the addends left over after the last full group
    of eight coming last; a longer run is split in two near the middle,
    at a multiple of 8. *)
Fixpoint pairwise_sum (fuel : nat) (a : list float64) : float64 :=
  let n := length a in
  if n <? 8 then fold_left f_add a (S754_zero true)
  else if n <=? 128 then
    let full := n - n mod 8 in
    let r j :=
      match every_8th j (firstn full a) with
      | [] => S754_zero false
      | x :: rest => fold_left f_add rest x
      end in
    fold_left f_add (skipn full a)
              (f_add (f_add (f_add (r 0) (r 1)) (f_add (r 2) (r 3)))
                     (f_add (f_add (r 4) (r 5)) (f_add (r 6) (r 7))))
  else
    match fuel with
    | O => fold_left f_add a (S754_zero true)
    | S fuel' =>
        let n2 := n / 2 - (n / 2) mod 8 in
        f_add (pairwise_sum fuel' (firstn n2 a)) (pairwise_sum fuel' (skipn n2 a))
    end.

(** The pieces the reduction hands to the inner loop: [bufsize] addends
    at a time. *)
Fixpoint chunks (fuel bufsize : nat) (a : list float64) : list (list float64) :=
  match fuel, a with
  | _, [] => []
  | O, _ => [a]
  | S fuel', _ => firstn bufsize a :: chunks fuel' bufsize (skipn bufsize a)
  end.

(** [values.sum(dtype=float64)]: from 0.0, the pairwise sum of each
    piece is added in turn.  A float64 column is one piece; an int64
    column is converted through a buffer of 8192 elements. *)
Definition np_sum (bufsize : nat) (a : list float64) : float64 :=
  fold_left (fun acc piece => f_add acc (pairwise_sum (length piece) piece))
            (chunks (length a) bufsize a) (S754_zero false).

(** [mean()]: the float64 sum, a missing value counting as 0.0, over the
    count of the values that are not missing; NaN when there is none. *)
Definition mean_of (xs : list (option Q)) : float64 :=
  match present xs with
  | [] => S754_nan
  | _ :: _ =>
      let a := map (fun x => match x with
                             | Some q => of_Q q
                             | None => S754_zero false
                             end) xs in
      let the_sum := np_sum (if int64_column xs then Z.to_nat 8192 else length xs) a in
      f_div the_sum (of_Z (Z.of_nat (length (present xs))))
  end.

(** [Series.max()] *)
Definition series_max (col : list value) : outcome scalar :=
  obind (numbers col) (fun xs => Return (max_of xs)).

(** [Series.min()] *)
Definition series_min (col : list value) : outcome scalar :=
  obind (numbers col) (fun xs => Return (min_of xs)).

(** [Series.mean()] *)
Definition series_mean (col : list value) : outcome float64 :=
  obind (numbers col) (fun xs => Return (mean_of xs)).

(** ** Formatting a float *)

(** The decimal digits of a natural number. *)
Fixpoint digits (fuel : nat) (n : Z) (acc : Py.str) : Py.str :=
  match fuel with
  | O => acc
  | S fuel' =>
      let acc' := Z.to_N (48 + n mod 10) :: acc in
      if (n <? 10)%Z then acc' else digits fuel' (n / 10) acc'
  end.

Definition decimal (n : Z) : Py.str := digits (S (Z.to_nat (Z.log2 n))) n [].

(** [format(x, ".1f")]: the exact value rounded to one decimal, ties to
    the even digit; the sign is kept when the digits are all zero. *)
Definition format_1f (x : float64) : Py.str :=
  match x with
  | S754_nan => u "nan"
  | S754_infinity false => u "inf"
  | S754_infinity true => u "-inf"
  | S754_zero s => (if s then u "-" else []) ++ u "0.0"
  | S754_finite s m e =>
      let tenths :=
        if (0 <=? e)%Z then (Z.pos m * 2 ^ e * 10)%Z
        else
          let den := (2 ^ (- e))%Z in
          let q := (Z.pos m * 10 / den)%Z in
          let r := (Z.pos m * 10 mod den)%Z in
          if (den <? 2 * r)%Z then (q + 1)%Z
          else if (2 * r =? den)%Z then (if Z.even q then q else q + 1)%Z
          else q in
      (if s then u "-" else []) ++ decimal (tenths / 10)
      ++ u "." ++ decimal (tenths mod 10)
  end.

(** ** [pd.cut] with [right=True] *)

(** [bins.searchsorted(x, side="left")] on increasing [bins]: the first
    position whose edge is not below [x]. *)
Fixpoint searchsorted_left (bins : list Q) (x : Q) : nat :=
  match bins with
  | [] => 0
  | b :: bins' => if Qltb b x then S (searchsorted_left bins' x) else 0
  end.

(** The bin of one number: its label, or a missing value when the number
    falls outside the edges. *)
Definition cut_one (bins : list Q) (labels : list Py.str) (include_lowest : bool)
    (x : Q) : value :=
  let ids := searchsorted_left bins x in
  let ids :=
    if include_lowest && Qeq_bool x (hd 0%Q bins) then 1 else ids in
  let na_mask := (ids =? length bins) || (ids =? 0) in
  if na_mask then NA
  else match nth_error labels (ids - 1) with
       | Some l => Str l
       | None => NA
       end.

(** [pd.cut(x, bins=bins, labels=labels, include_lowest=include_lowest)] *)
Fixpoint cut (x : list value) (bins : list Q) (labels : list Py.str)
    (include_lowest : bool) : outcome (list value) :=
  match x with
  | [] => Return []
  | Num q :: x' =>
      obind (cut x' bins labels include_lowest)
            (fun cs => Return (cut_one bins labels include_lowest q :: cs))
  | NA :: x' =>
      obind (cut x' bins labels include_lowest) (fun cs => Return (NA :: cs))
  | Str _ :: _ => Raise TypeError
  end.

(** ** What the program does to the outside world *)

(** One bar of the polar chart: [slot] k stands for the angle k * width,
    width = 2 * pi / [slots]. *)
Record bar : Type := mkBar {
  slot : nat;
  height : npfloat;
  color : Py.str
}.

(** One text placed on the polar chart by [ax.text(x, y, s, ...)] in the
    annotation loop: the angle of the bar, the radius, and the text. *)
Record note : Type := mkNote {
  note_slot : nat;
  note_radius : npfloat;
  note_text : Py.str
}.

Inductive chart : Type :=
| PxBar (data : DataFrame) (x y color title : Py.str)
| Scatterplot (data : DataFrame) (x y hue palette title xlabel ylabel legend : Py.str)
| Violinplot (data : DataFrame) (x y : Py.str) (palette : list (Py.str * Py.str))
    (title xlabel ylabel : Py.str)
| PolarBars (slots : nat) (bars : list bar) (notes : list note)
    (rim : npfloat) (rim_text title : Py.str).

Inductive event : Type :=
| ShowError (title message : Py.str)
| Stdout (line : Py.str)
| Prompt (text : Py.str)
| TkRoot (title geometry : Py.str)
| Treeview (cols : list Py.str)
| Scrollbar (orient : Py.str)
| TreeHeading (col : Py.str)
| TreeColumn (col : Py.str) (width : nat) (anchor : Py.str)
| TreeInsert (values : list value) (tag : Py.str)
| TagConfigure (tag background : Py.str)
| Pack (widget : Py.str)
| Mainloop
| Show (c : chart).

(** ** The object and the monad its methods run in *)

(** The instance: its one attribute, unset until [__init__] assigns it. *)
Record Analyzer : Type := mkAnalyzer {
  df : option DataFrame
}.

(** A method call: from the object before, the events issued, the object
    after, and a value or the exception that left the call. *)
Definition M (A : Type) : Type := Analyzer -> list event * Analyzer * outcome A.

Definition ret {A} (a : A) : M A := fun s => ([], s, Return a).

Definition bind {A B} (c : M A) (k : A -> M B) : M B :=
  fun s =>
    let '(t1, s1, r1) := c s in
    match r1 with
    | Return a => let '(t2, s2, r2) := k a s1 in (t1 ++ t2, s2, r2)
    | Raise e => (t1, s1, Raise e)
    end.

Definition emit (ev : event) : M unit := fun s => ([ev], s, Return tt).

Definition lift {A} (o : outcome A) : M A := fun s => ([], s, o).

(** [self.df] *)
Definition self_df : M DataFrame :=
  fun s =>
    match df s with
    | Some d => ([], s, Return d)
    | None => ([], s, Raise (AttributeError (u "df")))
    end.

(** [self.df = d] *)
Definition set_self_df (d : DataFrame) : M unit :=
  fun _ => ([], mkAnalyzer (Some d), Return tt).

Declare Scope py_scope.
Delimit Scope py_scope with py.
Notation "x <- c ;; k" := (bind c (fun x => k))
  (at level 61, c at next level, right associativity) : py_scope.
Notation "c ;; k" := (bind c (fun _ => k))
  (at level 61, right associativity) : py_scope.
Open Scope py_scope.

Definition events {A} (r : list event * Analyzer * outcome A) : list event :=
  fst (fst r).
Definition after {A} (r : list event * Analyzer * outcome A) : Analyzer :=
  snd (fst r).
Definition result {A} (r : list event * Analyzer * outcome A) : outcome A :=
  snd r.

Fixpoint enumerate {A} (start : nat) (l : list A) : list (nat * A) :=
  match l with
  | [] => []
  | a :: l' => (start, a) :: enumerate (S start) l'
  end.

(** [for x in l: body(x)] *)
Fixpoint for_each {A} (l : list A) (body : A -> M unit) : M unit :=
  match l with
  | [] => ret tt
  | a :: l' => body a ;; for_each l' body
  end.

(** What [pd.read_csv(path, encoding='utf-8')] does: a frame, or one of
    the two exception classes [read_file] tells apart, with [str(e)]. *)
Inductive read_result : Type :=
| Parsed (d : DataFrame)
| FileNotFoundError
| OtherException (e : Py.str).

(** ** class SleepHealthAnalyzer *)

Section SleepHealthAnalyzer.

(** The file system as [pd.read_csv] sees it. *)
Variable read_csv : Py.str -> read_result.

(** [textwrap.fill(text, width=width)] *)
Variable fill : Py.str -> nat -> Py.str.

Definition default_path : Py.str := u "Sleep_health_and_lifestyle_dataset.csv".

Definition error_title : Py.str := u "Ошибка".

Definition show_error_message (message : Py.str) : M unit :=
  emit (ShowError error_title (fill message 60)).

Definition read_file (path : Py.str) : M DataFrame :=
  match read_csv path with
  | Parsed d => ret (dropna d)
  | FileNotFoundError =>
      show_error_message
        (u "Файл '" ++ path ++ u "' не найден. Проверь путь и повтори попытку.") ;;
      ret DataFrame_new
  | OtherException e =>
      show_error_message (u "Не удалось загрузить данные:" ++ [10%N] ++ e) ;;
      ret DataFrame_new
  end.

Definition quality_column : Py.str := u "Quality of Sleep".
Definition category_column : Py.str := u "Категория качества сна".
Definition sleep_quality_bins : list Q := [0%Q; 3%Q; 6%Q; 10%Q].
Definition sleep_quality_labels : list Py.str :=
  [u "Плохое"; u "Среднее"; u "Хорошее"].

Definition setup_quality_categories : M unit :=
  d <- self_df ;;
  if negb (empty d) then
    x <- lift (getitem d quality_column) ;;
    c <- lift (cut x sleep_quality_bins sleep_quality_labels true) ;;
    d' <- self_df ;;
    set_self_df (setitem d' category_column c)
  else ret tt.

(** [__init__(self, path)] *)
Definition init (path : Py.str) : M unit :=
  d <- read_file path ;;
  set_self_df d ;;
  setup_quality_categories.

Definition row_tag (idx : nat) : Py.str :=
  if idx mod 2 =? 0 then u "evenrow" else u "oddrow".

Definition show_full_dataset : M unit :=
  d <- self_df ;;
  if empty d then show_error_message (u "Нет данных для отображения")
  else
    emit (TkRoot (u "Полный датасет") (u "1000x600")) ;;
    d <- self_df ;;
    emit (Treeview (columns d)) ;;
    emit (Scrollbar (u "vertical")) ;;
    emit (Scrollbar (u "horizontal")) ;;
    d <- self_df ;;
    for_each (columns d) (fun col =>
      emit (TreeHeading col) ;;
      emit (TreeColumn col 120 (u "w"))) ;;
    d <- self_df ;;
    for_each (enumerate 1 (itertuples (head 200 d))) (fun ir =>
      emit (TreeInsert (snd ir) (row_tag (fst ir)))) ;;
    emit (TagConfigure (u "oddrow") (u "#f9f9f9")) ;;
    emit (TagConfigure (u "evenrow") (u "#ffffff")) ;;
    emit (Pack (u "vsb")) ;;
    emit (Pack (u "hsb")) ;;
    emit (Pack (u "tree")) ;;
    emit Mainloop.

Definition categories : list Py.str :=
  [u "Sleep Duration"; u "Quality of Sleep"; u "Physical Activity Level";
   u "Stress Level"; u "Heart Rate"; u "Daily Steps"].

Definition colors : list Py.str :=
  [u "#59a6dd"; u "#ffa75b"; u "#80f580"; u "#f76666"; u "#c792f8"; u "#fd9d89"].

(** The loop over [categories] that fills [normalized_values]. *)
Fixpoint normalize (cats : list Py.str) (normalized_values : list float64)
    : M (list float64) :=
  match cats with
  | [] => ret normalized_values
  | category :: cats' =>
      d <- self_df ;;
      col <- lift (getitem d category) ;;
      max_val <- lift (series_max col) ;;
      d <- self_df ;;
      col <- lift (getitem d category) ;;
      min_val <- lift (series_min col) ;;
      d <- self_df ;;
      col <- lift (getitem d category) ;;
      mean <- lift (series_mean col) ;;
      let norm_val :=
        f_mul (f_div (f_sub mean (to_float64 min_val))
                     (to_float64 (scalar_sub max_val min_val)))
              (of_Z 100) in
      normalize cats' (normalized_values ++ [norm_val])
  end.

(** The polar chart drawn from [normalized_values]: one bar per feature
    at its angle, the dashed rim at radius 100 with its text, and for
    each feature its name and, on the next line, the value with one
    decimal, placed 5 above the bar's end. *)
Definition polar_chart (normalized_values : list float64) : chart :=
  let bars :=
    map (fun ivc => mkBar (fst ivc) (observe (fst (snd ivc))) (snd (snd ivc)))
        (enumerate 0 (combine normalized_values colors)) in
  let notes :=
    map (fun il =>
           let v := nth (fst il) normalized_values S754_nan in
           mkNote (fst il) (observe (f_add v (of_Z 5)))
                  (snd il ++ [10%N] ++ format_1f v))
        (enumerate 0 categories) in
  PolarBars (length categories) bars notes (Fin 100%Q)
            (u "100 — максимум")
            (u "Нормализованные средние значения признаков (100 = максимум)").

(** A plotting call that is given columns of [data] by name raises
    [ValueError] when a name is not a column of the frame. *)
Definition named_columns (data : DataFrame) (names : list Py.str) : M unit :=
  if forallb (fun name => match col_index name (columns data) with
                          | Some _ => true
                          | None => false
                          end) names
  then ret tt
  else lift (Raise ValueError).

(** A level of the grouping variable that a palette dictionary has a
    colour for; a missing value is no level. *)
Definition has_colour (palette : list (Py.str * Py.str)) (level : value) : bool :=
  match level with
  | Str s => existsb (fun kv => Py.eqb (fst kv) s) palette
  | Num _ => false
  | NA => true
  end.

(** With a dictionary as palette, [sns.violinplot] raises [ValueError]
    when a level of [x] is not among its keys. *)
Definition palette_covers (palette : list (Py.str * Py.str)) (data : DataFrame)
    (x : Py.str) : M unit :=
  levels <- lift (getitem data x) ;;
  if forallb (has_colour palette) levels then ret tt else lift (Raise ValueError).

Definition color_palette : list (Py.str * Py.str) :=
  [(u "Male", u "lightblue"); (u "Female", u "lightcoral")].

Definition show_analytics : M unit :=
  d <- self_df ;;
  if empty d then emit (ShowError (u "Ошибка") (u "Нет данных для анализа"))
  else
    d <- self_df ;;
    named_columns d [u "Stress Level"; u "Quality of Sleep"; u "Stress Level"] ;;
    emit (Show (PxBar d (u "Stress Level") (u "Quality of Sleep") (u "Stress Level")
                      (u "Уровень стресса и качество сна"))) ;;
    d <- self_df ;;
    named_columns d [u "Daily Steps"; u "Sleep Duration"; u "Quality of Sleep"] ;;
    emit (Show (Scatterplot d (u "Daily Steps") (u "Sleep Duration")
                            (u "Quality of Sleep") (u "viridis")
                            (u "Качество сна в зависимости от количества шагов в день")
                            (u "Количество шагов в день") (u "Качество сна (часы)")
                            (u "Качество сна"))) ;;
    d <- self_df ;;
    named_columns d [u "Gender"; u "Quality of Sleep"] ;;
    palette_covers color_palette d (u "Gender") ;;
    emit (Show (Violinplot d (u "Gender") (u "Quality of Sleep") color_palette
                           (u "Распределение качества сна по полу")
                           (u "Пол") (u "Качество сна"))) ;;
    normalized_values <- normalize categories [] ;;
    emit (Show (polar_chart normalized_values)).

Definition menu_prompt : Py.str := u "Введите значение: ".

(** [run(self)], reading the lines [stdin] holds; [input()] at the end of
    the input raises [EOFError]. *)
Fixpoint run (stdin : list Py.str) : M unit :=
  emit (Stdout (u "Меню:")) ;;
  emit (Stdout (u "1. Показать датасет")) ;;
  emit (Stdout (u "2. Показать диаграммы")) ;;
  emit (Stdout (u "3. Выйти из программы")) ;;
  emit (Prompt menu_prompt) ;;
  match stdin with
  | [] => lift (Raise EOFError)
  | line :: stdin' =>
      let choice := Py.strip line in
      if Py.eqb choice (u "1") then show_full_dataset ;; run stdin'
      else if Py.eqb choice (u "2") then show_analytics ;; run stdin'
      else if Py.eqb choice (u "3") then emit (Stdout (u "Завершение работы"))
      else emit (Stdout (u "Неверный ввод")) ;; run stdin'
  end.

(** The [__main__] block, from a fresh instance. *)
Definition main (stdin : list Py.str) : list event * Analyzer * outcome unit :=
  (init default_path ;; run stdin) (mkAnalyzer None).

End SleepHealthAnalyzer.

Arguments Py.u : simpl never.

(** ** Observations the statements are written with *)

(** [df.iloc[i][name]]: the cell of record [i] under column [name]. *)
Definition cell (d : DataFrame) (i : nat) (name : Py.str) : option value :=
  match col_index name (columns d), nth_error (rows d) i with
  | Some j, Some r => Some (nth j r NA)
  | _, _ => None
  end.

(** The rows put into the table, with their tags, in the order of the
    [tree.insert] calls. *)
Fixpoint inserted (t : list event) : list (list value * Py.str) :=
  match t with
  | [] => []
  | TreeInsert values tag :: t' => (values, tag) :: inserted t'
  | _ :: t' => inserted t'
  end.

(** The bars handed to [ax.bar], over all polar charts of a trace. *)
Fixpoint polar_bars (t : list event) : list bar :=
  match t with
  | [] => []
  | Show (PolarBars _ bars _ _ _ _) :: t' => bars ++ polar_bars t'
  | _ :: t' => polar_bars t'
  end.

(** What one pass through the loop of [run] writes before it reads. *)
Definition menu : list event :=
  [Stdout (u "Меню:"); Stdout (u "1. Показать датасет");
   Stdout (u "2. Показать диаграммы"); Stdout (u "3. Выйти из программы");
   Prompt menu_prompt].

Definition is_prompt (ev : event) : bool :=
  match ev with Prompt _ => true | _ => false end.

Definition is_invalid_input (ev : event) : bool :=
  match ev with Stdout l => Py.eqb l (u "Неверный ввод") | _ => false end.

Definition is_console (ev : event) : bool :=
  match ev with Stdout _ | Prompt _ => true | _ => false end.

(** The two data-dependent user actions. *)
Inductive action : Type :=
| TablePresenter
| ChartSuite.

Definition perform (fill : Py.str -> nat -> Py.str) (a : action) : M unit :=
  match a with
  | TablePresenter => show_full_dataset fill
  | ChartSuite => show_analytics
  end.

(** The spec's formula in exact arithmetic, over the numbers of one
    feature: ((mean - min) / (max - min)) * 100. *)
Definition Qsum (xs : list Q) : Q := fold_left Qplus xs 0%Q.
Definition Qmean (xs : list Q) : Q :=
  (Qsum xs / inject_Z (Z.of_nat (length xs)))%Q.
Definition Qmaximum (xs : list Q) : Q := fold_left Qmax (tl xs) (hd 0%Q xs).
Definition Qminimum (xs : list Q) : Q := fold_left Qmin (tl xs) (hd 0%Q xs).
Definition normalized_value (xs : list Q) : Q :=
  ((Qmean xs - Qminimum xs) / (Qmaximum xs - Qminimum xs) * 100)%Q.

(** A stand-in for [textwrap.fill], for running the model on examples:
    it leaves a text that fits the width alone and cuts a longer one
    into lines of [width] characters. *)
Fixpoint chop (fuel width : nat) (s : Py.str) : Py.str :=
  match fuel with
  | O => s
  | S fuel' =>
      if length s <=? width then s
      else firstn width s ++ [10%N] ++ chop fuel' width (skipn width s)
  end.

Definition sample_fill (s : Py.str) (width : nat) : Py.str :=
  chop (length s) width s.

(** Example file systems. *)
Definition no_file (path : Py.str) : read_result := FileNotFoundError.
Definition only_file (raw : DataFrame) (path : Py.str) : read_result := Parsed raw.

(** Example frames. *)
Definition header_only : DataFrame :=
  mkFrame [u "Quality of Sleep"; u "Stress Level"] [].

Definition all_rows_incomplete : DataFrame :=
  mkFrame [u "Quality of Sleep"; u "Stress Level"]
          [[Num 7%Q; NA]; [NA; Num 4%Q]].

Definition scores_frame : DataFrame :=
  mkFrame [u "Person ID"; u "Quality of Sleep"]
          [[Num 1%Q; Num 0%Q]; [Num 2%Q; Num 3%Q]; [Num 3%Q; Num (30001 # 10000)];
           [Num 4%Q; Num 6%Q]; [Num 5%Q; Num (60001 # 10000)]; [Num 6%Q; Num 10%Q]].

Definition out_of_range_frame : DataFrame :=
  mkFrame [u "Person ID"; u "Quality of Sleep"]
          [[Num 1%Q; Num 11%Q]; [Num 2%Q; Num (-1)%Q]].

(** Six feature columns in the order of [categories], then the gender. *)
Definition features_frame : DataFrame :=
  mkFrame (categories ++ [u "Gender"])
          [[Num 2%Q; Num 5%Q; Num 30%Q; Num 8%Q; Num 70%Q; Num 3000%Q; Str (u "Male")];
           [Num 4%Q; Num 6%Q; Num 45%Q; Num 6%Q; Num 72%Q; Num 5000%Q; Str (u "Female")];
           [Num 6%Q; Num 7%Q; Num 60%Q; Num 5%Q; Num 68%Q; Num 8000%Q; Str (u "Male")];
           [Num 8%Q; Num 9%Q; Num 75%Q; Num 3%Q; Num 65%Q; Num 10000%Q; Str (u "Female")]].

(** The same records with the stress level the same in every record. *)
Definition constant_stress_frame : DataFrame :=
  mkFrame (categories ++ [u "Gender"])
          [[Num 2%Q; Num 5%Q; Num 30%Q; Num 5%Q; Num 70%Q; Num 3000%Q; Str (u "Male")];
           [Num 4%Q; Num 6%Q; Num 45%Q; Num 5%Q; Num 72%Q; Num 5000%Q; Str (u "Female")];
           [Num 6%Q; Num 7%Q; Num 60%Q; Num 5%Q; Num 68%Q; Num 8000%Q; Str (u "Male")];
           [Num 8%Q; Num 9%Q; Num 75%Q; Num 5%Q; Num 65%Q; Num 10000%Q; Str (u "Female")]].

(** Three rows read, the second with a missing field. *)
Definition partly_incomplete : DataFrame :=
  mkFrame [u "Quality of Sleep"; u "Stress Level"]
          [[Num 7%Q; Num 4%Q]; [Num 5%Q; NA]; [Num 9%Q; Num 2%Q]].

Definition three_rows : DataFrame :=
  mkFrame [u "Person ID"; u "Gender"]
          [[Num 1%Q; Str (u "Male")]; [Num 2%Q; Str (u "Female")];
           [Num 3%Q; Str (u "Male")]].

(** A row that [dropna] removes. *)
Definition incomplete (r : list value) : bool := negb (forallb notna r).

(** Issuing a fixed list of events and nothing else. *)
Definition issue (t : list event) : M unit := fun s => (t, s, Return tt).

(** A call that leaves the object as it found it. *)
Definition preserving {A} (c : M A) : Prop := forall s, after (c s) = s.

(** What the Table Presenter does with a frame that is not empty. *)
Definition table_events (d : DataFrame) : list event :=
  [TkRoot (u "Полный датасет") (u "1000x600"); Treeview (columns d);
   Scrollbar (u "vertical"); Scrollbar (u "horizontal")]
  ++ flat_map (fun col => [TreeHeading col; TreeColumn col 120 (u "w")]) (columns d)
  ++ flat_map (fun ir => [TreeInsert (snd ir) (row_tag (fst ir))])
              (enumerate 1 (firstn 200 (rows d)))
  ++ [TagConfigure (u "oddrow") (u "#f9f9f9"); TagConfigure (u "evenrow") (u "#ffffff");
      Pack (u "vsb"); Pack (u "hsb"); Pack (u "tree"); Mainloop].

(** The formula with numpy's operations, for a column of numbers:
    the mean in float64, max and min in the dtype of the column, the
    difference [max - min] in int64 when the column is, the other steps
    in float64. *)
Definition normalized_np (xs : list Q) : float64 :=
  let col := map Some xs in
  let mean := mean_of col in
  let min_val := min_of col in
  let max_val := max_of col in
  f_mul (f_div (f_sub mean (to_float64 min_val))
               (to_float64 (scalar_sub max_val min_val)))
        (of_Z 100).

(** The three data-bound charts, in the order they are shown. *)
Definition data_charts (d : DataFrame) : list event :=
  [Show (PxBar d (u "Stress Level") (u "Quality of Sleep") (u "Stress Level")
               (u "Уровень стресса и качество сна"));
   Show (Scatterplot d (u "Daily Steps") (u "Sleep Duration")
                     (u "Quality of Sleep") (u "viridis")
                     (u "Качество сна в зависимости от количества шагов в день")
                     (u "Количество шагов в день") (u "Качество сна (часы)")
                     (u "Качество сна"));
   Show (Violinplot d (u "Gender") (u "Quality of Sleep") color_palette
                    (u "Распределение качества сна по полу")
                    (u "Пол") (u "Качество сна"))].

(** Every cell of the column is one of the two keys of the palette of
    the violin plot. *)
Definition male_or_female (v : value) : Prop :=
  v = Str (u "Male") \/ v = Str (u "Female").

(** The frame has what the three data-bound charts ask for: the four
    columns they name among the features, and a gender column whose
    cells are the keys of the palette. *)
Definition accepted (d : DataFrame) : Prop :=
  (forall name,
      In name [u "Stress Level"; u "Quality of Sleep"; u "Daily Steps"; u "Sleep Duration"] ->
      exists col, getitem d name = Return col) /\
  exists g, getitem d (u "Gender") = Return g /\ Forall male_or_female g.

(** A call whose events, whatever the object, hold none that [p]
    selects. *)
Definition quiet {A} (p : event -> bool) (c : M A) : Prop :=
  forall s, filter p (events (c s)) = [].

(** Two integer features whose range does not fit int64, and one float
    feature whose values are 0.1 five times and the next float64 once. *)
Definition tenth : Q := 3602879701896397 # 36028797018963968.
Definition tenth_succ : Q := 7205759403792795 # 72057594037927936.

Definition extreme_frame : DataFrame :=
  mkFrame (categories ++ [u "Gender"])
          (map (fun r => r ++ [Str (u "Male")])
               [[Num tenth; Num 5%Q; Num 30%Q; Num 8%Q; Num 70%Q;
                 Num (-5000000000000000000)%Q];
                [Num tenth; Num 6%Q; Num 45%Q; Num 6%Q; Num 72%Q;
                 Num 5000000000000000000%Q];
                [Num tenth; Num 7%Q; Num 60%Q; Num 5%Q; Num 68%Q;
                 Num (-5000000000000000000)%Q];
                [Num tenth; Num 9%Q; Num 75%Q; Num 3%Q; Num 65%Q;
                 Num 5000000000000000000%Q];
                [Num tenth; Num 9%Q; Num 75%Q; Num 3%Q; Num 65%Q;
                 Num (-5000000000000000000)%Q];
                [Num tenth_succ; Num 9%Q; Num 75%Q; Num 3%Q; Num 65%Q;
                 Num 5000000000000000000%Q]]).

(** A text of words with single blanks between them: no other white
    space, no blank at either end.  [textwrap.fill] returns such a text
    as it is when the text fits the width. *)
Fixpoint spaced (after_blank : bool) (s : Py.str) : bool :=
  match s with
  | [] => negb after_blank
  | c :: s' =>
      if (c =? 32)%N then negb after_blank && spaced true s'
      else negb (Py.isspace c) && spaced false s'
  end.

Definition plain (s : Py.str) : bool :=
  match s with
  | [] => true
  | _ :: _ => spaced true s
  end.

(** An error dialog with the fixed title whose text came out of
    [fill] at width 60; any other event passes. *)
Definition wrapped (fill : Py.str -> nat -> Py.str) (ev : event) : Prop :=
  match ev with
  | ShowError title message =>
      title = error_title /\ exists text, message = fill text 60
  | _ => True
  end.

(** A call all of whose events, whatever the object, satisfy [P]. *)
Definition every_event {A} (P : event -> Prop) (c : M A) : Prop :=
  forall s, Forall P (events (c s)).

(** [kept] relates the rows read to the rows retained: the complete
    rows, each once, in the order read. *)
Inductive kept : list (list value) -> list (list value) -> Prop :=
| kept_nil : kept [] []
| kept_complete r raw d : ~ In NA r -> kept raw d -> kept (r :: raw) (r :: d)
| kept_incomplete r raw d : In NA r -> kept raw d -> kept (r :: raw) d.

Definition is_dialog (ev : event) : bool :=
  match ev with ShowError _ _ => true | _ => false end.

(** Position, from 0, of the first line whose choice is "3". *)
Fixpoint first_exit (stdin : list Py.str) : option nat :=
  match stdin with
  | [] => None
  | line :: rest =>
      if Py.eqb (Py.strip line) (u "3") then Some 0
      else option_map S (first_exit rest)
  end.

(** The column headings of the table, in the order of the
    [tree.heading] calls. *)
Fixpoint headings (t : list event) : list Py.str :=
  match t with
  | [] => []
  | TreeHeading col :: t' => col :: headings t'
  | _ :: t' => headings t'
  end.

(** The texts placed by the annotation loop, over all polar charts of a
    trace. *)
Fixpoint polar_notes (t : list event) : list note :=
  match t with
  | [] => []
  | Show (PolarBars _ _ notes _ _ _) :: t' => notes ++ polar_notes t'
  | _ :: t' => polar_notes t'
  end.

(** The place of a category among the ordered labels of [pd.cut]. *)
Definition label_rank (v : value) : option nat :=
  match v with
  | Str l => col_index l sleep_quality_labels
  | _ => None
  end.

(** A frame with records and every column the three data-bound charts
    name, but without the heart rate. *)
Definition no_heart_rate_frame : DataFrame :=
  mkFrame [u "Sleep Duration"; u "Quality of Sleep"; u "Physical Activity Level";
           u "Stress Level"; u "Daily Steps"; u "Gender"]
          [[Num 6%Q; Num 5%Q; Num 30%Q; Num 8%Q; Num 3000%Q; Str (u "Male")];
           [Num 8%Q; Num 9%Q; Num 75%Q; Num 3%Q; Num 10000%Q; Str (u "Female")]].

(** A file with records and no quality-of-sleep column. *)
Definition no_quality_frame : DataFrame :=
  mkFrame [u "Person ID"; u "Gender"]
          [[Num 1%Q; Str (u "Male")]; [Num 2%Q; Str (u "Female")]].

(** * Properties *)

Unset Implicit Arguments.

(** ** Text *)

Lemma eqb_spec (a b : Py.str) : reflect (a = b) (Py.eqb a b).
Proof.
  revert b; induction a as [|x a IH]; intros [|y b]; simpl;
    try (constructor; congruence).
  destruct (N.eqb_spec x y) as [->|Hxy]; simpl.
  - destruct (IH b) as [->|Hab]; constructor; congruence.
  - constructor; congruence.
Qed.

Lemma eqb_refl (a : Py.str) : Py.eqb a a = true.
Proof. destruct (eqb_spec a a); congruence. Qed.

(** ** The monad *)

Lemma bind_returns {A B} (c : M A) (k : A -> M B) s t s' a :
  c s = (t, s', Return a) ->
  bind c k s = (t ++ events (k a s'), after (k a s'), result (k a s')).
Proof.
  intros H. unfold bind, events, after, result. rewrite H.
  destruct (k a s') as [[t2 s2] r2]. reflexivity.
Qed.

Lemma bind_raises {A B} (c : M A) (k : A -> M B) s t s' e :
  c s = (t, s', Raise e) -> bind c k s = (t, s', Raise e).
Proof. intros H. unfold bind. rewrite H. reflexivity. Qed.

Lemma run_eta {A} (r : list event * Analyzer * outcome A) :
  r = (events r, after r, result r).
Proof. destruct r as [[t s] o]. reflexivity. Qed.

(** A loop whose body only issues events issues them in order. *)
Lemma for_each_events {A} (l : list A) (body : A -> M unit) (g : A -> list event) :
  (forall a s, body a s = (g a, s, Return tt)) ->
  forall s, for_each l body s = (flat_map g l, s, Return tt).
Proof.
  intros Hbody. induction l as [|a l IH]; intros s; simpl.
  - reflexivity.
  - erewrite bind_returns by apply Hbody. rewrite IH.
    unfold events, after, result. reflexivity.
Qed.

(** ** Empty frames: C4, C5, C10 *)

Section Empty.

Variable read_csv : Py.str -> read_result.
Variable fill : Py.str -> nat -> Py.str.

Lemma show_full_dataset_empty (d : DataFrame) :
  empty d = true ->
  show_full_dataset fill (mkAnalyzer (Some d))
  = ([ShowError error_title (fill (u "Нет данных для отображения") 60)],
     mkAnalyzer (Some d), Return tt).
Proof.
  intros He. unfold show_full_dataset, bind, self_df. simpl. rewrite He.
  reflexivity.
Qed.

Lemma show_analytics_empty (d : DataFrame) :
  empty d = true ->
  show_analytics (mkAnalyzer (Some d))
  = ([ShowError error_title (u "Нет данных для анализа")],
     mkAnalyzer (Some d), Return tt).
Proof.
  intros He. unfold show_analytics, bind, self_df. simpl. rewrite He.
  reflexivity.
Qed.

(** C4. On an empty dataset the Table Presenter issues the error dialog
    and nothing else (no window, no row), the Chart Suite issues the
    error dialog and nothing else (no chart); both return normally and
    leave the object as it was. *)
Theorem empty_dataset_actions_report_and_do_nothing (d : DataFrame) :
  empty d = true ->
  show_full_dataset fill (mkAnalyzer (Some d))
  = ([ShowError error_title (fill (u "Нет данных для отображения") 60)],
     mkAnalyzer (Some d), Return tt) /\
  show_analytics (mkAnalyzer (Some d))
  = ([ShowError error_title (u "Нет данных для анализа")],
     mkAnalyzer (Some d), Return tt).
Proof.
  intros He. split.
  - apply show_full_dataset_empty, He.
  - apply show_analytics_empty, He.
Qed.

(** C5. When [pd.read_csv] fails, with [FileNotFoundError] or with any
    other exception, the Loader issues exactly one error dialog through
    [show_error_message] (the text wrapped at 60), raises nothing, leaves
    the object alone and returns [pd.DataFrame()], a frame of zero
    records; for a missing file the text names the path. *)
Theorem read_file_failure_is_reported_and_contained (path : Py.str) (s : Analyzer) :
  (forall raw, read_csv path <> Parsed raw) ->
  exists message,
    read_file read_csv fill path s
    = ([ShowError error_title (fill message 60)], s, Return DataFrame_new) /\
    length (rows DataFrame_new) = 0 /\ empty DataFrame_new = true /\
    (read_csv path = FileNotFoundError ->
     message = u "Файл '" ++ path ++ u "' не найден. Проверь путь и повтори попытку.").
Proof.
  intros Hfail. unfold read_file.
  destruct (read_csv path) as [raw| |e] eqn:Hr.
  - exfalso. apply (Hfail raw). reflexivity.
  - eexists. repeat split.
  - eexists. repeat split. discriminate.
Qed.

(** C10. A file that is read without an exception but keeps no complete
    row: construction issues no event at all and leaves the frame exactly
    as [dropna] returned it (no category column is added); the dialog
    appears only when the Table Presenter or the Chart Suite is called. *)
Theorem empty_after_load_is_silent_until_an_action (path : Py.str) (raw : DataFrame) :
  read_csv path = Parsed raw ->
  rows (dropna raw) = [] ->
  let constructed := mkAnalyzer (Some (dropna raw)) in
  init read_csv fill path (mkAnalyzer None) = ([], constructed, Return tt) /\
  show_full_dataset fill constructed
  = ([ShowError error_title (fill (u "Нет данных для отображения") 60)],
     constructed, Return tt) /\
  show_analytics constructed
  = ([ShowError error_title (u "Нет данных для анализа")], constructed, Return tt).
Proof.
  intros Hr Hrows constructed.
  assert (He : empty (dropna raw) = true).
  { unfold empty. rewrite Hrows. simpl. apply orb_true_r. }
  split; [|split].
  - unfold init, read_file, setup_quality_categories, bind, self_df, set_self_df.
    rewrite Hr. simpl. rewrite He. reflexivity.
  - apply show_full_dataset_empty, He.
  - apply show_analytics_empty, He.
Qed.

End Empty.

Lemma bind_emit {B} (ev : event) (k : unit -> M B) (s : Analyzer) :
  bind (emit ev) k s = (ev :: events (k tt s), after (k tt s), result (k tt s)).
Proof. apply (@bind_returns unit B (emit ev) k s [ev] s tt). reflexivity. Qed.

Lemma bind_self_df {B} (d : DataFrame) (k : DataFrame -> M B) :
  bind self_df k (mkAnalyzer (Some d)) = k d (mkAnalyzer (Some d)).
Proof.
  rewrite (@bind_returns _ _ self_df k _ [] (mkAnalyzer (Some d)) d) by reflexivity.
  symmetry. apply run_eta.
Qed.

Lemma bind_lift_return {A B} (a : A) (k : A -> M B) (s : Analyzer) :
  bind (lift (Return a)) k s = k a s.
Proof.
  rewrite (@bind_returns _ _ (lift (Return a)) k s [] s a) by reflexivity.
  symmetry. apply run_eta.
Qed.

Lemma bind_lift_raise {A B} (e : exn) (k : A -> M B) (s : Analyzer) :
  bind (lift (Raise e)) k s = ([], s, Raise e).
Proof. reflexivity. Qed.

(** ** The Table Presenter on a frame with records: C7 *)

Lemma inserted_app (t1 t2 : list event) :
  inserted (t1 ++ t2) = inserted t1 ++ inserted t2.
Proof.
  induction t1 as [|ev t1 IH]; simpl; [reflexivity|].
  destruct ev; simpl; rewrite ?IH; reflexivity.
Qed.

Lemma inserted_headings (cols : list Py.str) :
  inserted (flat_map (fun col => [TreeHeading col; TreeColumn col 120 (u "w")]) cols) = [].
Proof. induction cols as [|c cols IH]; simpl; auto. Qed.

Lemma inserted_rows (irs : list (nat * list value)) :
  inserted (flat_map (fun ir => [TreeInsert (snd ir) (row_tag (fst ir))]) irs)
  = map (fun ir => (snd ir, row_tag (fst ir))) irs.
Proof. induction irs as [|ir irs IH]; simpl; [|rewrite IH]; reflexivity. Qed.

Lemma length_enumerate {A} (l : list A) (k : nat) : length (enumerate k l) = length l.
Proof. revert k; induction l as [|a l IH]; intros k; simpl; [|rewrite IH]; reflexivity. Qed.

Lemma map_snd_enumerate {A} (l : list A) (k : nat) : map snd (enumerate k l) = l.
Proof. revert k; induction l as [|a l IH]; intros k; simpl; [|rewrite IH]; reflexivity. Qed.

Lemma nth_error_enumerate {A} (l : list A) (k n : nat) :
  nth_error (enumerate k l) n = option_map (fun a => (k + n, a)) (nth_error l n).
Proof.
  revert k n; induction l as [|a l IH]; intros k [|n]; simpl; try reflexivity.
  - rewrite Nat.add_0_r. reflexivity.
  - rewrite IH. replace (S k + n) with (k + S n) by lia. reflexivity.
Qed.

Lemma row_tags_differ : u "evenrow" <> u "oddrow".
Proof. vm_compute. discriminate. Qed.

Lemma row_tag_even (N : nat) : row_tag N = u "evenrow" <-> Nat.Even N.
Proof.
  unfold row_tag. destruct (Nat.eqb_spec (N mod 2) 0) as [H0|H0]; split; intros H.
  - exists (N / 2). pose proof (Nat.div_mod_eq N 2). lia.
  - reflexivity.
  - exfalso. apply row_tags_differ. symmetry. exact H.
  - exfalso. apply H0. destruct H as [k ->].
    rewrite Nat.mul_comm. apply Nat.Div0.mod_mul.
Qed.

Section Table.

Variable fill : Py.str -> nat -> Py.str.

Lemma show_full_dataset_nonempty (d : DataFrame) :
  empty d = false ->
  show_full_dataset fill (mkAnalyzer (Some d))
  = (table_events d, mkAnalyzer (Some d), Return tt).
Proof.
  intros He. unfold show_full_dataset.
  rewrite bind_self_df, He.
  repeat first [rewrite bind_emit | rewrite bind_self_df].
  erewrite bind_returns;
    [|apply (for_each_events (columns d) _
               (fun col => [TreeHeading col; TreeColumn col 120 (u "w")]));
      reflexivity].
  repeat first [rewrite bind_emit | rewrite bind_self_df].
  erewrite bind_returns;
    [|apply (for_each_events (enumerate 1 (itertuples (head 200 d))) _
               (fun ir => [TreeInsert (snd ir) (row_tag (fst ir))]));
      reflexivity].
  repeat rewrite bind_emit.
  reflexivity.
Qed.

Lemma inserted_table_events (d : DataFrame) :
  inserted (table_events d)
  = map (fun ir => (snd ir, row_tag (fst ir))) (enumerate 1 (firstn 200 (rows d))).
Proof.
  unfold table_events. rewrite !inserted_app, inserted_headings, inserted_rows.
  simpl. rewrite app_nil_r. reflexivity.
Qed.

(** C7. For a dataset that is not empty the rows put into the table are,
    in order, the first 200 records of the dataset (all of them when
    there are fewer): min(200, len) rows; and the N-th inserted row,
    counted from 1, is the N-th record and carries the tag [evenrow]
    exactly when N is even ([oddrow] otherwise). *)
Theorem table_shows_first_200_rows_alternately_tagged (d : DataFrame) :
  empty d = false ->
  let shown := inserted (events (show_full_dataset fill (mkAnalyzer (Some d)))) in
  length shown = Nat.min 200 (length (rows d)) /\
  map fst shown = firstn 200 (rows d) /\
  forall N row tag,
    1 <= N -> nth_error shown (N - 1) = Some (row, tag) ->
    nth_error (rows d) (N - 1) = Some row /\
    (tag = u "evenrow" <-> Nat.Even N) /\
    (tag = u "oddrow" <-> ~ Nat.Even N).
Proof.
  intros He shown. subst shown.
  rewrite show_full_dataset_nonempty by exact He. unfold events. simpl fst.
  rewrite inserted_table_events. split; [|split].
  - rewrite length_map, length_enumerate, length_firstn. reflexivity.
  - rewrite map_map. simpl. apply map_snd_enumerate.
  - intros N row tag HN Hnth.
    rewrite nth_error_map, nth_error_enumerate in Hnth.
    destruct (nth_error (firstn 200 (rows d)) (N - 1)) as [r|] eqn:Hr;
      simpl in Hnth; [|discriminate].
    injection Hnth as <- <-.
    replace (S (N - 1)) with N by lia.
    rewrite nth_error_firstn in Hr.
    destruct (N - 1 <? 200); [|discriminate].
    split; [exact Hr|]. split; [apply row_tag_even|].
    rewrite <- row_tag_even. unfold row_tag.
    destruct (N mod 2 =? 0); split; intros H; try reflexivity.
    + exfalso. apply row_tags_differ, H.
    + exfalso. apply H. reflexivity.
    + apply not_eq_sym, row_tags_differ.
Qed.

End Table.

(** ** The menu loop: C6 *)

Section Menu.

Variable fill : Py.str -> nat -> Py.str.

Lemma bind_issue {B} (t : list event) (k : unit -> M B) (s : Analyzer) :
  bind (issue t) k s = (t ++ events (k tt s), after (k tt s), result (k tt s)).
Proof. apply (@bind_returns unit B (issue t) k s t s tt). reflexivity. Qed.

(** One pass through the loop: the menu, the prompt, then the branch
    the stripped line selects. *)
Lemma run_cons (line : Py.str) (rest : list Py.str) (s : Analyzer) :
  run fill (line :: rest) s
  = (issue menu ;;
     let choice := Py.strip line in
     if Py.eqb choice (u "1") then show_full_dataset fill ;; run fill rest
     else if Py.eqb choice (u "2") then show_analytics ;; run fill rest
     else if Py.eqb choice (u "3") then emit (Stdout (u "Завершение работы"))
     else emit (Stdout (u "Неверный ввод")) ;; run fill rest) s.
Proof.
  rewrite bind_issue. cbn [run]. repeat rewrite bind_emit.
  unfold menu, events, after, result. cbn [app fst snd]. reflexivity.
Qed.

Lemma run_nil (s : Analyzer) : run fill [] s = (menu, s, Raise EOFError).
Proof. reflexivity. Qed.

Lemma filter_console_table_events (d : DataFrame) :
  filter is_console (table_events d) = [].
Proof.
  unfold table_events. rewrite !filter_app. simpl.
  assert (H1 : forall cols,
             filter is_console
               (flat_map (fun col => [TreeHeading col; TreeColumn col 120 (u "w")]) cols) = []).
  { induction cols as [|c cols IH]; simpl; auto. }
  assert (H2 : forall irs : list (nat * list value),
             filter is_console
               (flat_map (fun ir => [TreeInsert (snd ir) (row_tag (fst ir))]) irs) = []).
  { induction irs as [|ir irs IH]; simpl; auto. }
  rewrite H1, H2. reflexivity.
Qed.

(** On a constructed object the Table Presenter always returns, leaves
    the object alone, and writes nothing to the console. *)
Lemma show_full_dataset_returns (d : DataFrame) :
  exists t,
    show_full_dataset fill (mkAnalyzer (Some d)) = (t, mkAnalyzer (Some d), Return tt) /\
    filter is_console t = [].
Proof.
  destruct (empty d) eqn:He.
  - eexists. split; [apply show_full_dataset_empty, He | reflexivity].
  - eexists. split; [apply show_full_dataset_nonempty, He |].
    apply filter_console_table_events.
Qed.

Lemma filter_weaker {A} (p q : A -> bool) (l : list A) :
  (forall a, p a = true -> q a = true) -> filter q l = [] -> filter p l = [].
Proof.
  intros Hpq. induction l as [|a l IH]; simpl; [reflexivity|].
  destruct (q a) eqn:Hq; [discriminate|]. intros Hl.
  destruct (p a) eqn:Hp; [rewrite (Hpq a Hp) in Hq; discriminate|]. auto.
Qed.

Lemma run_9_1_3 (d : DataFrame) :
  run fill [u "9"; u "1"; u "3"] (mkAnalyzer (Some d))
  = (menu ++ [Stdout (u "Неверный ввод")]
     ++ menu ++ events (show_full_dataset fill (mkAnalyzer (Some d)))
     ++ menu ++ [Stdout (u "Завершение работы")],
     mkAnalyzer (Some d), Return tt).
Proof.
  destruct (show_full_dataset_returns d) as (t & Ht & _).
  rewrite !run_cons. cbv zeta.
  change (Py.eqb (Py.strip (u "9")) (u "1")) with false.
  change (Py.eqb (Py.strip (u "9")) (u "2")) with false.
  change (Py.eqb (Py.strip (u "9")) (u "3")) with false.
  cbv iota.
  rewrite bind_issue, bind_emit, run_cons. cbv zeta.
  change (Py.eqb (Py.strip (u "1")) (u "1")) with true. cbv iota.
  rewrite bind_issue. erewrite bind_returns by exact Ht.
  rewrite run_cons. cbv zeta.
  change (Py.eqb (Py.strip (u "3")) (u "1")) with false.
  change (Py.eqb (Py.strip (u "3")) (u "2")) with false.
  change (Py.eqb (Py.strip (u "3")) (u "3")) with true.
  cbv iota. rewrite bind_issue, Ht.
  unfold events, after, result, emit. cbn [fst snd].
  rewrite <- ?app_assoc. reflexivity.
Qed.

(** C6, as the code has it. The choice is the line read with leading and
    trailing whitespace removed. The Table Presenter is called when the
    choice is "1" and the Chart Suite when it is "2", each followed by
    the next pass of the loop; "3" writes the farewell and ends the loop
    without reading again; every other choice writes the invalid-input
    line and goes to the next pass. For the lines "9", "1", "3" the trace
    is: menu, one invalid-input line, menu, the Table Presenter's events
    once, menu, farewell; three prompts in all, and normal termination. *)
Theorem menu_dispatches_on_the_stripped_line
    (line : Py.str) (rest : list Py.str) (s : Analyzer) :
  let choice := Py.strip line in
  (choice = u "1" ->
   run fill (line :: rest) s
   = (issue menu ;; show_full_dataset fill ;; run fill rest) s) /\
  (choice = u "2" ->
   run fill (line :: rest) s = (issue menu ;; show_analytics ;; run fill rest) s) /\
  (choice = u "3" ->
   run fill (line :: rest) s
   = (menu ++ [Stdout (u "Завершение работы")], s, Return tt)) /\
  (choice <> u "1" -> choice <> u "2" -> choice <> u "3" ->
   run fill (line :: rest) s
   = (issue menu ;; emit (Stdout (u "Неверный ввод")) ;; run fill rest) s) /\
  (forall d,
     let constructed := mkAnalyzer (Some d) in
     let trace := events (run fill [u "9"; u "1"; u "3"] constructed) in
     run fill [u "9"; u "1"; u "3"] constructed
     = (menu ++ [Stdout (u "Неверный ввод")]
        ++ menu ++ events (show_full_dataset fill constructed)
        ++ menu ++ [Stdout (u "Завершение работы")],
        constructed, Return tt) /\
     length (filter is_invalid_input trace) = 1 /\
     length (filter is_prompt trace) = 3).
Proof.
  intros choice. split; [|split; [|split; [|split]]].
  - intros H1. rewrite run_cons. fold choice. rewrite H1. reflexivity.
  - intros H2. rewrite run_cons. fold choice. rewrite H2. reflexivity.
  - intros H3. rewrite run_cons. fold choice. rewrite H3. reflexivity.
  - intros N1 N2 N3. rewrite run_cons. fold choice. cbv zeta.
    destruct (eqb_spec choice (u "1")); [contradiction|].
    destruct (eqb_spec choice (u "2")); [contradiction|].
    destruct (eqb_spec choice (u "3")); [contradiction|].
    reflexivity.
  - intros d constructed trace. subst trace constructed.
    rewrite run_9_1_3. split; [reflexivity|].
    destruct (show_full_dataset_returns d) as (t & Ht & Hc).
    rewrite Ht. unfold events. cbn [fst].
    assert (Hi : filter is_invalid_input t = []).
    { apply (filter_weaker is_invalid_input is_console); [|exact Hc].
      intros [] H; try discriminate; reflexivity. }
    assert (Hp : filter is_prompt t = []).
    { apply (filter_weaker is_prompt is_console); [|exact Hc].
      intros [] H; try discriminate; reflexivity. }
    rewrite !filter_app, Hi, Hp. split; reflexivity.
Qed.

End Menu.

(** ** Frames: columns, cells and column assignment *)

Lemma col_index_lt (name : Py.str) (cols : list Py.str) (j : nat) :
  col_index name cols = Some j -> j < length cols.
Proof.
  revert j; induction cols as [|c cols IH]; intros j; simpl; [discriminate|].
  destruct (Py.eqb c name).
  - intros [= <-]. lia.
  - destruct (col_index name cols) as [j'|]; simpl; [|discriminate].
    intros [= <-]. specialize (IH j' eq_refl). lia.
Qed.

Lemma col_index_app_fresh (name : Py.str) (cols : list Py.str) :
  col_index name cols = None ->
  col_index name (cols ++ [name]) = Some (length cols).
Proof.
  induction cols as [|c cols IH]; simpl.
  - rewrite eqb_refl. reflexivity.
  - destruct (Py.eqb c name); [discriminate|].
    destruct (col_index name cols); [discriminate|].
    intros _. rewrite IH by reflexivity. reflexivity.
Qed.

Lemma col_index_app_other (name other : Py.str) (cols : list Py.str) :
  other <> name -> col_index other (cols ++ [name]) = col_index other cols.
Proof.
  intros Hne. induction cols as [|c cols IH]; simpl.
  - destruct (eqb_spec name other); [congruence | reflexivity].
  - rewrite IH. reflexivity.
Qed.

Lemma col_index_sound (name : Py.str) (cols : list Py.str) (j : nat) :
  col_index name cols = Some j -> nth_error cols j = Some name.
Proof.
  revert j; induction cols as [|c cols IH]; intros j; simpl; [discriminate|].
  destruct (eqb_spec c name) as [->|Hne].
  - intros [= <-]. reflexivity.
  - destruct (col_index name cols) as [j'|]; simpl; [|discriminate].
    intros [= <-]. simpl. apply IH. reflexivity.
Qed.

Lemma nth_set_nth_same (j : nat) (v : value) (r : list value) :
  j < length r -> nth j (set_nth j v r) NA = v.
Proof.
  revert j; induction r as [|x r IH]; intros [|j]; simpl; intros H; try lia.
  - reflexivity.
  - apply IH. lia.
Qed.

Lemma nth_set_nth_other (j j' : nat) (v : value) (r : list value) :
  j' <> j -> nth j' (set_nth j v r) NA = nth j' r NA.
Proof.
  revert j j'; induction r as [|x r IH]; intros [|j] [|j']; simpl; intros H;
    try reflexivity; try lia.
  apply IH. lia.
Qed.

Lemma rectangular_rows (d : DataFrame) (r : list value) :
  rectangular d = true -> In r (rows d) -> length r = length (columns d).
Proof.
  unfold rectangular. rewrite forallb_forall. intros H Hin.
  apply Nat.eqb_eq, H, Hin.
Qed.

Lemma rectangular_dropna (d : DataFrame) :
  rectangular d = true -> rectangular (dropna d) = true.
Proof.
  unfold rectangular, dropna. simpl. rewrite !forallb_forall.
  intros H r Hin. apply filter_In in Hin. apply H, Hin.
Qed.

Lemma getitem_length (d : DataFrame) (name : Py.str) (x : list value) :
  getitem d name = Return x -> length x = length (rows d).
Proof.
  unfold getitem. destruct (col_index name (columns d)); [|discriminate].
  intros [= <-]. apply length_map.
Qed.

Lemma map_combine_ext {A B C} (f : A * B -> C) (g : A -> C) (l : list A) (l' : list B) :
  length l' = length l ->
  (forall a b, In a l -> f (a, b) = g a) ->
  map f (combine l l') = map g l.
Proof.
  revert l'; induction l as [|a l IH]; intros [|b l'] Hlen Hf; simpl in *;
    try discriminate; [reflexivity|].
  rewrite Hf by auto. f_equal. apply IH; [lia | auto].
Qed.

Lemma map_combine_snd {A B} (f : A * B -> B) (l : list A) (l' : list B) :
  length l' = length l ->
  (forall a b, In a l -> f (a, b) = b) ->
  map f (combine l l') = l'.
Proof.
  revert l'; induction l as [|a l IH]; intros [|b l'] Hlen Hf; simpl in *;
    try discriminate; [reflexivity|].
  rewrite Hf by auto. f_equal. apply IH; [lia | auto].
Qed.

(** Reading back the column just assigned. *)
Lemma getitem_setitem_same (d : DataFrame) (name : Py.str) (vals : list value) :
  rectangular d = true -> length vals = length (rows d) ->
  getitem (setitem d name vals) name = Return vals.
Proof.
  intros Hrect Hlen. unfold setitem, getitem.
  destruct (col_index name (columns d)) as [j|] eqn:Hj; simpl.
  - rewrite Hj, map_map. f_equal. apply map_combine_snd; [exact Hlen|].
    intros r v Hin. simpl. apply nth_set_nth_same.
    rewrite (rectangular_rows d r Hrect Hin). apply (col_index_lt _ _ _ Hj).
  - rewrite (col_index_app_fresh _ _ Hj), map_map. f_equal.
    apply map_combine_snd; [exact Hlen|].
    intros r v Hin. simpl.
    rewrite <- (rectangular_rows d r Hrect Hin), app_nth2, Nat.sub_diag by lia.
    reflexivity.
Qed.

(** Assigning one column leaves every other column as it was. *)
Lemma getitem_setitem_other (d : DataFrame) (name other : Py.str) (vals : list value) :
  rectangular d = true -> length vals = length (rows d) -> other <> name ->
  getitem (setitem d name vals) other = getitem d other.
Proof.
  intros Hrect Hlen Hne. unfold setitem, getitem.
  destruct (col_index name (columns d)) as [j|] eqn:Hj; simpl.
  - destruct (col_index other (columns d)) as [j'|] eqn:Hj'; [|reflexivity].
    rewrite map_map. f_equal. apply map_combine_ext; [exact Hlen|].
    intros r v Hin. simpl. apply nth_set_nth_other.
    intros ->. apply Hne.
    pose proof (col_index_sound _ _ _ Hj) as H1.
    pose proof (col_index_sound _ _ _ Hj') as H2. congruence.
  - rewrite (col_index_app_other _ _ (columns d) Hne).
    destruct (col_index other (columns d)) as [j'|] eqn:Hj'; [|reflexivity].
    rewrite map_map. f_equal. apply map_combine_ext; [exact Hlen|].
    intros r v Hin. simpl. apply app_nth1.
    rewrite (rectangular_rows d r Hrect Hin). apply (col_index_lt _ _ _ Hj').
Qed.

Lemma setitem_rows_length (d : DataFrame) (name : Py.str) (vals : list value) :
  length vals = length (rows d) ->
  length (rows (setitem d name vals)) = length (rows d).
Proof.
  intros Hlen. unfold setitem.
  destruct (col_index name (columns d)); simpl;
    rewrite length_map, length_combine, Hlen; apply Nat.min_id.
Qed.

Lemma cell_getitem (d : DataFrame) (i : nat) (name : Py.str) (v : value) :
  cell d i name = Some v <->
  exists col, getitem d name = Return col /\ nth_error col i = Some v.
Proof.
  unfold cell, getitem.
  destruct (col_index name (columns d)) as [j|].
  - split.
    + destruct (nth_error (rows d) i) as [r|] eqn:Hr; [|discriminate].
      intros [= <-]. eexists. split; [reflexivity|].
      rewrite nth_error_map, Hr. reflexivity.
    + intros (col & [= <-] & Hn). rewrite nth_error_map in Hn.
      destruct (nth_error (rows d) i); simpl in Hn; [exact Hn | discriminate].
  - split; [discriminate|]. intros (col & H & _). discriminate.
Qed.

(** ** [pd.cut] *)

Lemma cut_length x bins labels il c :
  cut x bins labels il = Return c -> length c = length x.
Proof.
  revert c; induction x as [|v x IH]; intros c; simpl.
  - intros [= <-]. reflexivity.
  - destruct v; try discriminate;
      destruct (cut x bins labels il) as [c'|]; simpl; try discriminate;
      intros [= <-]; simpl; rewrite (IH c' eq_refl); reflexivity.
Qed.

Lemma cut_nth x bins labels il c i s :
  cut x bins labels il = Return c ->
  nth_error x i = Some (Num s) ->
  nth_error c i = Some (cut_one bins labels il s).
Proof.
  revert c i; induction x as [|v x IH]; intros c i; simpl.
  - destruct i; discriminate.
  - destruct v; try discriminate;
      destruct (cut x bins labels il) as [c'|]; simpl; try discriminate;
      intros [= <-]; destruct i; simpl; try discriminate;
      try (intros [= <-]; reflexivity); apply IH; reflexivity.
Qed.

Lemma cut_numeric x bins labels il :
  Forall (fun v => exists s, v = Num s) x ->
  exists c, cut x bins labels il = Return c.
Proof.
  induction 1 as [|v x (s & ->) _ (c & Hc)]; simpl.
  - eexists. reflexivity.
  - rewrite Hc. eexists. reflexivity.
Qed.

(** ** Category derivation: C1 *)

Lemma Qltb_spec (x y : Q) : reflect (x < y)%Q (Qltb x y).
Proof.
  unfold Qltb. destruct (Qle_bool y x) eqn:H; constructor.
  - apply Qle_not_lt, Qle_bool_iff, H.
  - apply Qnot_le_lt. intros Hle. apply Qle_bool_iff in Hle. congruence.
Qed.

Lemma Qeq_bool_spec (x y : Q) : reflect (x == y)%Q (Qeq_bool x y).
Proof.
  destruct (Qeq_bool x y) eqn:H; constructor.
  - apply Qeq_bool_iff, H.
  - apply Qeq_bool_neq, H.
Qed.

Ltac labels_differ H := exfalso; revert H; vm_compute; discriminate.

(** The bin of a score under the program's edges and labels. *)
Lemma quality_category_spec (s : Q) :
  let c := cut_one sleep_quality_bins sleep_quality_labels true s in
  (c = Str (u "Плохое") <-> (0 <= s <= 3)%Q) /\
  (c = Str (u "Среднее") <-> (3 < s <= 6)%Q) /\
  (c = Str (u "Хорошее") <-> (6 < s <= 10)%Q) /\
  (c = NA <-> (s < 0 \/ 10 < s)%Q).
Proof.
  unfold cut_one, sleep_quality_bins, sleep_quality_labels.
  cbn [searchsorted_left hd andb length].
  destruct (Qeq_bool_spec s 0) as [E0|E0];
  destruct (Qltb_spec 0 s) as [L0|L0];
  destruct (Qltb_spec 3 s) as [L3|L3];
  destruct (Qltb_spec 6 s) as [L6|L6];
  destruct (Qltb_spec 10 s) as [L10|L10];
  cbn [Nat.eqb orb Nat.sub nth_error];
  (split; [|split; [|split]]); split; intros H;
  try lra; try reflexivity; try discriminate H; try (labels_differ H).
Qed.

Lemma bind_ret {A B} (a : A) (k : A -> M B) (s : Analyzer) :
  bind (ret a) k s = k a s.
Proof.
  rewrite (@bind_returns _ _ (ret a) k s [] s a) by reflexivity.
  symmetry. apply run_eta.
Qed.

Lemma bind_set_self_df {B} (d : DataFrame) (k : unit -> M B) (s : Analyzer) :
  bind (set_self_df d) k s = k tt (mkAnalyzer (Some d)).
Proof.
  rewrite (@bind_returns _ _ (set_self_df d) k s [] (mkAnalyzer (Some d)) tt)
    by reflexivity.
  symmetry. apply run_eta.
Qed.

(** The four ways the derivation can go on a constructed object. *)
Lemma setup_on_empty (d : DataFrame) :
  empty d = true ->
  setup_quality_categories (mkAnalyzer (Some d)) = ([], mkAnalyzer (Some d), Return tt).
Proof.
  intros He. unfold setup_quality_categories. rewrite bind_self_df, He. reflexivity.
Qed.

Lemma setup_without_scores (d : DataFrame) (e : exn) :
  empty d = false -> getitem d quality_column = Raise e ->
  setup_quality_categories (mkAnalyzer (Some d)) = ([], mkAnalyzer (Some d), Raise e).
Proof.
  intros He Hx. unfold setup_quality_categories. rewrite bind_self_df, He, Hx.
  reflexivity.
Qed.

Lemma setup_cut_raises (d : DataFrame) (x : list value) (e : exn) :
  empty d = false -> getitem d quality_column = Return x ->
  cut x sleep_quality_bins sleep_quality_labels true = Raise e ->
  setup_quality_categories (mkAnalyzer (Some d)) = ([], mkAnalyzer (Some d), Raise e).
Proof.
  intros He Hx Hc. unfold setup_quality_categories.
  rewrite bind_self_df, He, Hx. cbn [negb]. rewrite bind_lift_return, Hc.
  reflexivity.
Qed.

Lemma setup_assigns (d : DataFrame) (x c : list value) :
  empty d = false -> getitem d quality_column = Return x ->
  cut x sleep_quality_bins sleep_quality_labels true = Return c ->
  setup_quality_categories (mkAnalyzer (Some d))
  = ([], mkAnalyzer (Some (setitem d category_column c)), Return tt).
Proof.
  intros He Hx Hc. unfold setup_quality_categories.
  rewrite bind_self_df, He, Hx. cbn [negb].
  rewrite bind_lift_return, Hc, bind_lift_return, bind_self_df. reflexivity.
Qed.

Section Derivation.

Variable read_csv : Py.str -> read_result.
Variable fill : Py.str -> nat -> Py.str.

Lemma init_loaded (path : Py.str) (raw : DataFrame) :
  read_csv path = Parsed raw ->
  init read_csv fill path (mkAnalyzer None)
  = setup_quality_categories (mkAnalyzer (Some (dropna raw))).
Proof.
  intros Hr. unfold init, read_file. rewrite Hr, bind_ret, bind_set_self_df.
  reflexivity.
Qed.

(** C1, as the code has it. After construction from a file whose
    retained records all carry a numeric quality-of-sleep score, the
    category cell of a retained record with score s is the first label
    exactly when 0 <= s <= 3, the second exactly when 3 < s <= 6, the
    third exactly when 6 < s <= 10, and is missing exactly when s < 0 or
    10 < s: a record whose score lies in [0,10] gets exactly one
    category, a record whose score lies outside gets none. *)
Theorem category_derivation_on_retained_records (path : Py.str) (raw : DataFrame) :
  read_csv path = Parsed raw ->
  rectangular raw = true ->
  empty (dropna raw) = false ->
  (forall i, i < length (rows (dropna raw)) ->
             exists s, cell (dropna raw) i quality_column = Some (Num s)) ->
  exists d',
    init read_csv fill path (mkAnalyzer None) = ([], mkAnalyzer (Some d'), Return tt) /\
    length (rows d') = length (rows (dropna raw)) /\
    forall i s,
      cell (dropna raw) i quality_column = Some (Num s) ->
      exists c,
        cell d' i category_column = Some c /\
        (c = Str (u "Плохое") <-> (0 <= s <= 3)%Q) /\
        (c = Str (u "Среднее") <-> (3 < s <= 6)%Q) /\
        (c = Str (u "Хорошее") <-> (6 < s <= 10)%Q) /\
        (c = NA <-> (s < 0 \/ 10 < s)%Q).
Proof.
  intros Hr Hrect He Hnum.
  set (d := dropna raw) in *.
  assert (Hrd : rectangular d = true) by (apply rectangular_dropna, Hrect).
  assert (Hpos : 0 < length (rows d)).
  { unfold empty in He. apply orb_false_iff in He. destruct He as [_ He].
    apply Nat.eqb_neq in He. lia. }
  destruct (Hnum 0 Hpos) as (s0 & Hs0).
  apply cell_getitem in Hs0. destruct Hs0 as (x & Hx & _).
  assert (Hall : Forall (fun v => exists s, v = Num s) x).
  { apply Forall_forall. intros v Hin.
    destruct (In_nth_error _ _ Hin) as (i & Hi).
    assert (Hlt : i < length (rows d)).
    { rewrite <- (getitem_length _ _ _ Hx). apply nth_error_Some. congruence. }
    destruct (Hnum i Hlt) as (s & Hs). apply cell_getitem in Hs.
    destruct Hs as (x' & Hx' & Hi'). exists s. congruence. }
  destruct (cut_numeric x sleep_quality_bins sleep_quality_labels true Hall) as (c & Hc).
  assert (Hlen : length c = length (rows d)).
  { rewrite (cut_length _ _ _ _ _ Hc). apply (getitem_length _ _ _ Hx). }
  exists (setitem d category_column c). split; [|split].
  - rewrite (init_loaded path raw Hr). apply (setup_assigns _ _ _ He Hx Hc).
  - apply setitem_rows_length, Hlen.
  - intros i s Hs. apply cell_getitem in Hs. destruct Hs as (x' & Hx' & Hi).
    assert (x' = x) by congruence. subst x'.
    exists (cut_one sleep_quality_bins sleep_quality_labels true s). split.
    + apply cell_getitem. exists c. split.
      * apply getitem_setitem_same; assumption.
      * apply (cut_nth _ _ _ _ _ _ _ Hc Hi).
    + apply quality_category_spec.
Qed.

End Derivation.

(** A retained record whose score is outside [0,10] gets no category:
    with scores 11 and -1 nothing is dropped at load time, construction
    succeeds, and both category cells are missing values. *)
Lemma out_of_range_score_gets_no_category :
  dropna out_of_range_frame = out_of_range_frame /\
  exists d',
    init (only_file out_of_range_frame) sample_fill default_path (mkAnalyzer None)
    = ([], mkAnalyzer (Some d'), Return tt) /\
    cell d' 0 quality_column = Some (Num 11%Q) /\
    cell d' 0 category_column = Some NA /\
    cell d' 1 quality_column = Some (Num (-1)%Q) /\
    cell d' 1 category_column = Some NA.
Proof.
  split; [reflexivity|]. eexists. split; [vm_compute; reflexivity|].
  repeat split; vm_compute; reflexivity.
Qed.

(** ** The dataset after construction: C9 *)

Lemma preserving_ret {A} (a : A) : preserving (ret a).
Proof. intros s. reflexivity. Qed.

Lemma preserving_emit (ev : event) : preserving (emit ev).
Proof. intros s. reflexivity. Qed.

Lemma preserving_lift {A} (o : outcome A) : preserving (lift o).
Proof. intros s. reflexivity. Qed.

Lemma preserving_issue (t : list event) : preserving (issue t).
Proof. intros s. reflexivity. Qed.

Lemma preserving_self_df : preserving self_df.
Proof. intros s. unfold self_df. destruct (df s); reflexivity. Qed.

Lemma preserving_bind {A B} (c : M A) (k : A -> M B) :
  preserving c -> (forall a, preserving (k a)) -> preserving (bind c k).
Proof.
  intros Hc Hk s. unfold bind. specialize (Hc s).
  destruct (c s) as [[t1 s1] [a|e]]; unfold after in Hc; simpl in Hc; subst s1.
  - specialize (Hk a s). destruct (k a s) as [[t2 s2] r2]. exact Hk.
  - reflexivity.
Qed.

Lemma preserving_for_each {A} (l : list A) (body : A -> M unit) :
  (forall a, preserving (body a)) -> preserving (for_each l body).
Proof.
  intros Hb. induction l as [|a l IH]; simpl.
  - apply preserving_ret.
  - apply preserving_bind; [apply Hb | intros _; exact IH].
Qed.

Ltac preserve :=
  repeat first
    [ apply preserving_ret | apply preserving_emit | apply preserving_lift
    | apply preserving_self_df | apply preserving_issue
    | apply preserving_for_each; intros
    | apply preserving_bind; [|intros]
    | match goal with
      | |- preserving (if ?b then _ else _) => destruct b
      | |- preserving (let _ := _ in _) => cbv zeta
      end
    | assumption ].

Lemma preserving_normalize (cats : list Py.str) (acc : list float64) :
  preserving (normalize cats acc).
Proof.
  revert acc. induction cats as [|category cats IH]; intros acc; simpl.
  - apply preserving_ret.
  - preserve. apply IH.
Qed.

Lemma preserving_named_columns (d : DataFrame) (names : list Py.str) :
  preserving (named_columns d names).
Proof. unfold named_columns. preserve. Qed.

Lemma preserving_palette_covers (palette : list (Py.str * Py.str)) (d : DataFrame)
    (x : Py.str) :
  preserving (palette_covers palette d x).
Proof. unfold palette_covers. preserve. Qed.

Lemma preserving_show_analytics : preserving show_analytics.
Proof.
  unfold show_analytics.
  repeat first
    [ apply preserving_self_df | apply preserving_emit
    | apply preserving_named_columns | apply preserving_palette_covers
    | apply preserving_normalize
    | apply preserving_bind; [|intros]
    | match goal with |- preserving (if ?b then _ else _) => destruct b end ].
Qed.

Section Frame.

Variable fill : Py.str -> nat -> Py.str.

Lemma preserving_show_full_dataset : preserving (show_full_dataset fill).
Proof. unfold show_full_dataset, show_error_message. preserve. Qed.

Lemma preserving_perform (a : action) : preserving (perform fill a).
Proof.
  destruct a; [apply preserving_show_full_dataset | apply preserving_show_analytics].
Qed.

Lemma preserving_run (stdin : list Py.str) : preserving (run fill stdin).
Proof.
  induction stdin as [|line stdin IH]; cbn [run];
    repeat first
      [ apply preserving_show_full_dataset | apply preserving_show_analytics
      | apply preserving_emit | apply preserving_lift | exact IH
      | apply preserving_bind; [|intros]
      | match goal with
        | |- preserving (if ?b then _ else _) => destruct b
        | |- preserving (let _ := _ in _) => cbv zeta
        end ].
Qed.

(** The derivation either leaves the frame alone or assigns the category
    column of a frame as long as the dataset. *)
Lemma setup_effect (d : DataFrame) :
  after (setup_quality_categories (mkAnalyzer (Some d))) = mkAnalyzer (Some d) \/
  exists c, length c = length (rows d) /\
    after (setup_quality_categories (mkAnalyzer (Some d)))
    = mkAnalyzer (Some (setitem d category_column c)).
Proof.
  destruct (empty d) eqn:He.
  - left. rewrite (setup_on_empty d He). reflexivity.
  - destruct (getitem d quality_column) as [x|e] eqn:Hx.
    + destruct (cut x sleep_quality_bins sleep_quality_labels true) as [c|e] eqn:Hc.
      * right. exists c. split.
        -- rewrite (cut_length _ _ _ _ _ Hc). apply (getitem_length _ _ _ Hx).
        -- rewrite (setup_assigns d x c He Hx Hc). reflexivity.
      * left. rewrite (setup_cut_raises d x e He Hx Hc). reflexivity.
    + left. rewrite (setup_without_scores d e He Hx). reflexivity.
Qed.

(** C9. Whatever sequence of Table Presenter and Chart Suite calls is
    made, and whatever lines the menu loop reads, the object afterwards
    is the object before: same frame, same rows, columns, values and
    order. The one change to the frame happens in construction, where
    the category column is assigned: the number of records and every
    other column stay as loaded. *)
Theorem dataset_is_not_mutated_after_construction :
  (forall (actions : list action) (s : Analyzer),
     after (for_each actions (perform fill) s) = s) /\
  (forall (stdin : list Py.str) (s : Analyzer), after (run fill stdin s) = s) /\
  (forall d : DataFrame,
     rectangular d = true ->
     exists d',
       after (setup_quality_categories (mkAnalyzer (Some d))) = mkAnalyzer (Some d') /\
       length (rows d') = length (rows d) /\
       forall name, name <> category_column -> getitem d' name = getitem d name).
Proof.
  split; [|split].
  - intros actions. apply preserving_for_each, preserving_perform.
  - intros stdin. apply preserving_run.
  - intros d Hrect. destruct (setup_effect d) as [H|(c & Hlen & H)].
    + exists d. auto.
    + exists (setitem d category_column c). split; [exact H|]. split.
      * apply setitem_rows_length, Hlen.
      * intros name Hne. apply getitem_setitem_other; assumption.
Qed.

End Frame.

(** ** The normalization behind the polar chart: C2, C3 *)

Lemma bind_silent {A B} (c : M A) (k : A -> M B) (s : Analyzer) (a : A) :
  c s = ([], s, Return a) -> bind c k s = k a s.
Proof.
  intros H. rewrite (bind_returns _ _ _ _ _ _ H). symmetry. apply run_eta.
Qed.

Lemma numbers_map_Num (xs : list Q) : numbers (map Num xs) = Return (map Some xs).
Proof. induction xs as [|x xs IH]; simpl; [|rewrite IH]; reflexivity. Qed.

(** On a column of numbers the three reductions and the arithmetic of
    one pass of the loop amount to [normalized_np]. *)
Lemma normalize_step (d : DataFrame) (category : Py.str) (cats : list Py.str)
    (acc : list float64) (xs : list Q) :
  getitem d category = Return (map Num xs) ->
  normalize (category :: cats) acc (mkAnalyzer (Some d))
  = normalize cats (acc ++ [normalized_np xs]) (mkAnalyzer (Some d)).
Proof.
  intros Hx. cbn [normalize].
  unfold series_max, series_min, series_mean.
  repeat first [rewrite bind_lift_return | rewrite bind_self_df | rewrite Hx
               | rewrite numbers_map_Num; cbn [obind]].
  reflexivity.
Qed.

Lemma normalize_numeric (d : DataFrame) (cats : list Py.str) (acc : list float64) :
  (forall feature, In feature cats ->
                   exists xs, getitem d feature = Return (map Num xs)) ->
  exists vs,
    normalize cats acc (mkAnalyzer (Some d)) = ([], mkAnalyzer (Some d), Return (acc ++ vs)) /\
    Forall2 (fun feature v =>
               exists xs, getitem d feature = Return (map Num xs) /\ v = normalized_np xs)
            cats vs.
Proof.
  revert acc. induction cats as [|category cats IH]; intros acc Hnum.
  - exists []. rewrite app_nil_r. split; [reflexivity | constructor].
  - destruct (Hnum category (or_introl eq_refl)) as (xs & Hx).
    destruct (IH (acc ++ [normalized_np xs])
                 (fun f Hf => Hnum f (or_intror Hf))) as (vs & Hrun & Hall).
    exists (normalized_np xs :: vs). split.
    + rewrite (normalize_step d category cats acc xs Hx), Hrun, <- app_assoc.
      reflexivity.
    + constructor; [exists xs; auto | exact Hall].
Qed.

Lemma heights_of_bars (vs : list float64) :
  length vs <= length colors ->
  map height (polar_bars [Show (polar_chart vs)]) = map observe vs.
Proof.
  intros Hlen. unfold polar_chart. cbn [polar_bars]. rewrite app_nil_r.
  rewrite map_map. cbn [height].
  generalize 0. revert Hlen. generalize colors.
  induction vs as [|v vs IH]; intros [|c cs] Hlen k; simpl in *;
    try reflexivity; try lia.
  rewrite IH by lia. reflexivity.
Qed.

Lemma Forall2_map_right {A B C} (R : A -> C -> Prop) (f : B -> C)
    (l : list A) (l' : list B) :
  Forall2 (fun a b => R a (f b)) l l' -> Forall2 R l (map f l').
Proof. induction 1; constructor; auto. Qed.

Lemma named_columns_present (d : DataFrame) (names : list Py.str) (s : Analyzer) :
  (forall name, In name names -> exists col, getitem d name = Return col) ->
  named_columns d names s = ([], s, Return tt).
Proof.
  intros H. unfold named_columns.
  rewrite (proj2 (forallb_forall _ names)); [reflexivity|].
  intros name Hin. destruct (H name Hin) as (col & Hc).
  unfold getitem in Hc. destruct (col_index name (columns d)); [reflexivity|discriminate].
Qed.

Lemma palette_covers_gender (d : DataFrame) (g : list value) (s : Analyzer) :
  getitem d (u "Gender") = Return g ->
  Forall male_or_female g ->
  palette_covers color_palette d (u "Gender") s = ([], s, Return tt).
Proof.
  intros Hg Hall. unfold palette_covers. rewrite Hg, bind_lift_return.
  rewrite (proj2 (forallb_forall _ g)); [reflexivity|].
  intros v Hv. rewrite Forall_forall in Hall.
  destruct (Hall v Hv) as [-> | ->]; reflexivity.
Qed.

Lemma show_analytics_nonempty (d : DataFrame) (vs : list float64) :
  empty d = false ->
  accepted d ->
  normalize categories [] (mkAnalyzer (Some d)) = ([], mkAnalyzer (Some d), Return vs) ->
  show_analytics (mkAnalyzer (Some d))
  = (data_charts d ++ [Show (polar_chart vs)], mkAnalyzer (Some d), Return tt).
Proof.
  intros He (Hcols & g & Hg & Hlevels) Hn.
  assert (H1 : named_columns d [u "Stress Level"; u "Quality of Sleep"; u "Stress Level"]
                 (mkAnalyzer (Some d)) = ([], mkAnalyzer (Some d), Return tt)).
  { apply named_columns_present.
    intros name [<-|[<-|[<-|[]]]]; apply Hcols; cbn; auto. }
  assert (H2 : named_columns d [u "Daily Steps"; u "Sleep Duration"; u "Quality of Sleep"]
                 (mkAnalyzer (Some d)) = ([], mkAnalyzer (Some d), Return tt)).
  { apply named_columns_present.
    intros name [<-|[<-|[<-|[]]]]; apply Hcols; cbn; auto. }
  assert (H3 : named_columns d [u "Gender"; u "Quality of Sleep"]
                 (mkAnalyzer (Some d)) = ([], mkAnalyzer (Some d), Return tt)).
  { apply named_columns_present.
    intros name [<-|[<-|[]]]; [exists g; exact Hg | apply Hcols; cbn; auto]. }
  unfold show_analytics.
  rewrite bind_self_df, He.
  rewrite bind_self_df, (bind_silent _ _ _ tt H1), bind_emit.
  rewrite bind_self_df, (bind_silent _ _ _ tt H2), bind_emit.
  rewrite bind_self_df, (bind_silent _ _ _ tt H3).
  rewrite (bind_silent _ _ _ tt (palette_covers_gender d g _ Hg Hlevels)), bind_emit.
  rewrite (bind_returns _ _ _ _ _ _ Hn).
  reflexivity.
Qed.

Lemma features_accepted (d : DataFrame) :
  (forall feature, In feature categories ->
                   exists xs, getitem d feature = Return (map Num xs)) ->
  (exists g, getitem d (u "Gender") = Return g /\ Forall male_or_female g) ->
  accepted d.
Proof.
  intros Hnum Hg. split; [|exact Hg].
  intros name Hin.
  destruct (Hnum name) as (xs & Hx); [|exists (map Num xs); exact Hx].
  destruct Hin as [<-|[<-|[<-|[<-|[]]]]]; cbn; auto 10.
Qed.

(** C2. When the dataset has records, the six fixed features are columns
    of numbers and the gender column holds 'Male' and 'Female' only (so
    that the three charts before it are drawn), the Chart Suite returns
    normally with one polar chart of six bars, in the order of the
    features.  The length of a bar is ((mean - min) / (max - min)) * 100
    over all the records of its column, in numpy's arithmetic: the mean,
    the two subtractions from it, the quotient and the product are
    float64 operations, each rounded, and max - min is an int64
    difference when the column is int64.  For a feature whose values are
    2, 4, 6, 8, as integers or as floats, the length is exactly 50. *)
Theorem radial_bar_lengths_follow_the_formula (d : DataFrame) :
  empty d = false ->
  (forall feature, In feature categories ->
                   exists xs, getitem d feature = Return (map Num xs)) ->
  (exists g, getitem d (u "Gender") = Return g /\ Forall male_or_female g) ->
  let outcome := show_analytics (mkAnalyzer (Some d)) in
  result outcome = Return tt /\
  length (polar_bars (events outcome)) = 6 /\
  Forall2 (fun feature h =>
             exists xs,
               getitem d feature = Return (map Num xs) /\
               length xs = length (rows d) /\
               (let col := map Some xs in
                h = observe
                      (f_mul (f_div (f_sub (mean_of col) (to_float64 (min_of col)))
                                    (to_float64 (scalar_sub (max_of col) (min_of col))))
                             (of_Z 100))) /\
               (xs = [2%Q; 4%Q; 6%Q; 8%Q] -> h = Fin 50%Q) /\
               (xs = [4 # 2; 8 # 2; 12 # 2; 16 # 2]%Q -> h = Fin 50%Q))
          categories (map height (polar_bars (events outcome))).
Proof.
  intros He Hnum Hgender outcome. subst outcome.
  destruct (normalize_numeric d categories [] Hnum) as (vs & Hrun & Hall).
  cbn [app] in Hrun.
  rewrite (show_analytics_nonempty d vs He (features_accepted d Hnum Hgender) Hrun).
  assert (Hlen : length vs = 6).
  { apply Forall2_length in Hall. rewrite <- Hall. reflexivity. }
  assert (Hheights : map height (polar_bars (data_charts d ++ [Show (polar_chart vs)]))
                     = map observe vs).
  { apply (heights_of_bars vs). rewrite Hlen. cbn. lia. }
  unfold events, result. cbn [fst snd].
  split; [reflexivity|]. split.
  - rewrite <- (length_map height), Hheights, length_map. exact Hlen.
  - rewrite Hheights. apply Forall2_map_right. revert Hall. apply Forall2_impl.
    intros feature v (xs & Hx & ->). exists xs.
    split; [exact Hx|]. split.
    { rewrite <- (getitem_length _ _ _ Hx). symmetry. apply length_map. }
    split; [reflexivity|].
    split; intros ->; vm_compute; reflexivity.
Qed.

(** C3, on the code. With the stress level the same in every record the
    Chart Suite returns normally and hands the chart a bar whose length
    is NaN: the quotient 0/0 of the normalization, passed on unchanged. *)
Theorem constant_feature_puts_nan_in_the_chart :
  let outcome := show_analytics (mkAnalyzer (Some constant_stress_frame)) in
  result outcome = Return tt /\
  map height (polar_bars (events outcome))
  = [Fin 50%Q; Fin (175 # 4); Fin 50%Q; NaN;
     Fin (3769754152374857 # 70368744177664); Fin 50%Q] /\
  forallb isfinite (map height (polar_bars (events outcome))) = false.
Proof. vm_compute. repeat split. Qed.

(** On [extreme_frame] the Chart Suite draws its four charts, and two
    bars of the polar chart are not what the formula gives in exact
    arithmetic.  The daily steps alternate between -5 * 10^18 and
    5 * 10^18: the formula gives 50, but max - min is 10^19, which as an
    int64 difference wraps around to a negative number, and the bar has
    a negative length near -59.2.  The sleep duration is the float64
    0.1 five times and the next float64 once: the formula gives 50/3,
    but the rounded mean lies below the minimum and the bar has the
    length -100. *)
Lemma radial_bar_departs_from_the_exact_formula :
  let outcome := show_analytics (mkAnalyzer (Some extreme_frame)) in
  let steps :=
    [-5000000000000000000; 5000000000000000000; -5000000000000000000;
     5000000000000000000; -5000000000000000000; 5000000000000000000]%Q in
  let durations := [tenth; tenth; tenth; tenth; tenth; tenth_succ] in
  result outcome = Return tt /\
  getitem extreme_frame (u "Daily Steps") = Return (map Num steps) /\
  getitem extreme_frame (u "Sleep Duration") = Return (map Num durations) /\
  (normalized_value steps == 50)%Q /\
  (normalized_value durations == 50 # 3)%Q /\
  map height (polar_bars (events outcome))
  = [Fin (-100)%Q; Fin (125 # 2); Fin (2345624805922133 # 35184372088832);
     Fin (4691249611844267 # 140737488355328);
     Fin (5026338869833143 # 140737488355328);
     Fin (-520679503572613 # 8796093022208)].
Proof. vm_compute. repeat split. Qed.

(** ** The statements at concrete inputs *)

(** A menu line padded with blanks is not the string "1", yet it opens
    the table: the trace is menu, the Table Presenter's events, menu,
    farewell, and holds no invalid-input line. *)
Lemma padded_choice_opens_the_table :
  u " 1 " <> u "1" /\
  run sample_fill [u " 1 "; u "3"] (mkAnalyzer (Some three_rows))
  = (menu ++ table_events three_rows ++ menu ++ [Stdout (u "Завершение работы")],
     mkAnalyzer (Some three_rows), Return tt) /\
  filter is_invalid_input
         (events (run sample_fill [u " 1 "; u "3"] (mkAnalyzer (Some three_rows)))) = [].
Proof.
  split; [|split].
  - intros H. revert H. vm_compute. discriminate.
  - vm_compute. reflexivity.
  - vm_compute. reflexivity.
Qed.

Lemma empty_dataset_actions_witness :
  empty DataFrame_new = true /\
  show_full_dataset sample_fill (mkAnalyzer (Some DataFrame_new))
  = ([ShowError error_title (sample_fill (u "Нет данных для отображения") 60)],
     mkAnalyzer (Some DataFrame_new), Return tt) /\
  show_analytics (mkAnalyzer (Some DataFrame_new))
  = ([ShowError error_title (u "Нет данных для анализа")],
     mkAnalyzer (Some DataFrame_new), Return tt).
Proof.
  split; [reflexivity|].
  apply (empty_dataset_actions_report_and_do_nothing sample_fill DataFrame_new).
  reflexivity.
Defined.

Lemma read_file_failure_witness :
  exists message,
    read_file no_file sample_fill default_path (mkAnalyzer None)
    = ([ShowError error_title (sample_fill message 60)], mkAnalyzer None,
       Return DataFrame_new) /\
    length (rows DataFrame_new) = 0 /\ empty DataFrame_new = true /\
    (no_file default_path = FileNotFoundError ->
     message = u "Файл '" ++ default_path
               ++ u "' не найден. Проверь путь и повтори попытку.").
Proof.
  apply (read_file_failure_is_reported_and_contained
           no_file sample_fill default_path (mkAnalyzer None)).
  intros raw. discriminate.
Defined.

Lemma empty_after_load_witness :
  rows (dropna all_rows_incomplete) = [] /\
  let constructed := mkAnalyzer (Some (dropna all_rows_incomplete)) in
  init (only_file all_rows_incomplete) sample_fill default_path (mkAnalyzer None)
  = ([], constructed, Return tt) /\
  show_full_dataset sample_fill constructed
  = ([ShowError error_title (sample_fill (u "Нет данных для отображения") 60)],
     constructed, Return tt) /\
  show_analytics constructed
  = ([ShowError error_title (u "Нет данных для анализа")], constructed, Return tt).
Proof.
  split; [reflexivity|].
  apply (empty_after_load_is_silent_until_an_action
           (only_file all_rows_incomplete) sample_fill default_path all_rows_incomplete);
    reflexivity.
Defined.

Lemma table_rows_witness :
  let shown :=
    inserted (events (show_full_dataset sample_fill (mkAnalyzer (Some three_rows)))) in
  length shown = Nat.min 200 (length (rows three_rows)) /\
  map fst shown = firstn 200 (rows three_rows) /\
  forall N row tag,
    1 <= N -> nth_error shown (N - 1) = Some (row, tag) ->
    nth_error (rows three_rows) (N - 1) = Some row /\
    (tag = u "evenrow" <-> Nat.Even N) /\
    (tag = u "oddrow" <-> ~ Nat.Even N).
Proof.
  apply (table_shows_first_200_rows_alternately_tagged sample_fill three_rows).
  reflexivity.
Defined.

Lemma category_derivation_witness :
  exists d',
    init (only_file scores_frame) sample_fill default_path (mkAnalyzer None)
    = ([], mkAnalyzer (Some d'), Return tt) /\
    length (rows d') = length (rows (dropna scores_frame)) /\
    forall i s,
      cell (dropna scores_frame) i quality_column = Some (Num s) ->
      exists c,
        cell d' i category_column = Some c /\
        (c = Str (u "Плохое") <-> (0 <= s <= 3)%Q) /\
        (c = Str (u "Среднее") <-> (3 < s <= 6)%Q) /\
        (c = Str (u "Хорошее") <-> (6 < s <= 10)%Q) /\
        (c = NA <-> (s < 0 \/ 10 < s)%Q).
Proof.
  apply (category_derivation_on_retained_records
           (only_file scores_frame) sample_fill default_path scores_frame);
    try reflexivity.
  intros i Hi. vm_compute in Hi.
  do 6 (destruct i as [|i]; [eexists; reflexivity|]). lia.
Defined.

Lemma radial_bar_lengths_witness :
  let outcome := show_analytics (mkAnalyzer (Some features_frame)) in
  result outcome = Return tt /\
  length (polar_bars (events outcome)) = 6 /\
  Forall2 (fun feature h =>
             exists xs,
               getitem features_frame feature = Return (map Num xs) /\
               length xs = length (rows features_frame) /\
               (let col := map Some xs in
                h = observe
                      (f_mul (f_div (f_sub (mean_of col) (to_float64 (min_of col)))
                                    (to_float64 (scalar_sub (max_of col) (min_of col))))
                             (of_Z 100))) /\
               (xs = [2%Q; 4%Q; 6%Q; 8%Q] -> h = Fin 50%Q) /\
               (xs = [4 # 2; 8 # 2; 12 # 2; 16 # 2]%Q -> h = Fin 50%Q))
          categories (map height (polar_bars (events outcome))).
Proof.
  apply (radial_bar_lengths_follow_the_formula features_frame); [reflexivity| |].
  - intros feature Hin. cbn in Hin.
    destruct Hin as [<-|[<-|[<-|[<-|[<-|[<-|[]]]]]]].
    + exists [2%Q; 4%Q; 6%Q; 8%Q]. reflexivity.
    + exists [5%Q; 6%Q; 7%Q; 9%Q]. reflexivity.
    + exists [30%Q; 45%Q; 60%Q; 75%Q]. reflexivity.
    + exists [8%Q; 6%Q; 5%Q; 3%Q]. reflexivity.
    + exists [70%Q; 72%Q; 68%Q; 65%Q]. reflexivity.
    + exists [3000%Q; 5000%Q; 8000%Q; 10000%Q]. reflexivity.
  - exists [Str (u "Male"); Str (u "Female"); Str (u "Male"); Str (u "Female")].
    split; [reflexivity|].
    repeat first [apply Forall_nil
                 | apply Forall_cons; [first [left; reflexivity | right; reflexivity]|]].
Defined.

(** ** Further properties of the loader, the normalization and a session *)

Lemma complete_iff (r : list value) : forallb notna r = true <-> ~ In NA r.
Proof.
  rewrite forallb_forall. split.
  - intros Hc Hna. specialize (Hc NA Hna). discriminate.
  - intros Hna v Hv. destruct v; try reflexivity. contradiction.
Qed.

Lemma kept_filter (raw : list (list value)) : kept raw (filter (forallb notna) raw).
Proof.
  induction raw as [|r raw IH]; cbn [filter]; [constructor|].
  destruct (forallb notna r) eqn:Hr.
  - apply kept_complete; [apply complete_iff, Hr | exact IH].
  - apply kept_incomplete; [|exact IH].
    clear IH. induction r as [|v r IHr]; [discriminate|].
    cbn [forallb] in Hr. destruct v; cbn [notna andb] in Hr;
      first [left; reflexivity | right; apply IHr, Hr].
Qed.

Lemma kept_functional (raw d d' : list (list value)) :
  kept raw d -> kept raw d' -> d = d'.
Proof.
  intros H. revert d'. induction H as [|r raw d Hr H IH|r raw d Hr H IH]; intros d' H';
    inversion H'; subst; try contradiction; auto.
  f_equal. auto.
Qed.

Section Loading.

Variable read_csv : Py.str -> read_result.
Variable fill : Py.str -> nat -> Py.str.

(** Loading a file that parses shows nothing and returns the column
    labels as read and the complete rows, each once and in the order of
    the file: the rows returned are the one list that [kept] relates to
    the rows read.  Of N rows read, M of them with a missing field,
    N - M are returned. *)
Theorem loading_keeps_the_complete_rows_in_order
    (path : Py.str) (raw : DataFrame) (s : Analyzer) :
  read_csv path = Parsed raw ->
  exists d,
    read_file read_csv fill path s = ([], s, Return d) /\
    columns d = columns raw /\
    kept (rows raw) (rows d) /\
    (forall rows', kept (rows raw) rows' -> rows' = rows d) /\
    length (rows d) + length (filter incomplete (rows raw)) = length (rows raw).
Proof.
  intros Hr. exists (dropna raw). unfold read_file. rewrite Hr.
  split; [reflexivity|]. split; [reflexivity|].
  unfold dropna. cbn [rows]. split; [apply kept_filter|]. split.
  - intros rows' H. apply (kept_functional _ _ _ H (kept_filter (rows raw))).
  - induction (rows raw) as [|r rs IH]; cbn [filter]; [reflexivity|].
    unfold incomplete at 1. destruct (forallb notna r); cbn [negb length]; lia.
Qed.

End Loading.

Lemma loading_witness :
  exists d,
    read_file (only_file partly_incomplete) sample_fill default_path (mkAnalyzer None)
    = ([], mkAnalyzer None, Return d) /\
    columns d = columns partly_incomplete /\
    kept (rows partly_incomplete) (rows d) /\
    (forall rows', kept (rows partly_incomplete) rows' -> rows' = rows d) /\
    length (rows d) + length (filter incomplete (rows partly_incomplete))
    = length (rows partly_incomplete).
Proof.
  apply (loading_keeps_the_complete_rows_in_order
           (only_file partly_incomplete) sample_fill default_path partly_incomplete
           (mkAnalyzer None)).
  reflexivity.
Defined.

(** ** A feature that is constant across the records *)

Lemma present_map_Some (xs : list Q) : present (map Some xs) = xs.
Proof. induction xs as [|x xs IH]; cbn; [|rewrite IH]; reflexivity. Qed.

Lemma fold_Zmax_repeat (z : Z) (n : nat) : fold_left Z.max (repeat z n) z = z.
Proof. induction n as [|n IH]; cbn; [|rewrite Z.max_id]; auto. Qed.

Lemma fold_Zmin_repeat (z : Z) (n : nat) : fold_left Z.min (repeat z n) z = z.
Proof. induction n as [|n IH]; cbn; [|rewrite Z.min_id]; auto. Qed.

Lemma fold_f_max_repeat (v : float64) (n : nat) : fold_left f_max (repeat v n) v = v.
Proof.
  induction n as [|n IH]; cbn [repeat fold_left]; [reflexivity|].
  unfold f_max at 2. destruct (SFltb v v); exact IH.
Qed.

Lemma fold_f_min_repeat (v : float64) (n : nat) : fold_left f_min (repeat v n) v = v.
Proof.
  induction n as [|n IH]; cbn [repeat fold_left]; [reflexivity|].
  unfold f_min at 2. destruct (SFltb v v); exact IH.
Qed.

Lemma map_repeat {A B} (f : A -> B) (a : A) (n : nat) :
  map f (repeat a n) = repeat (f a) n.
Proof. induction n as [|n IH]; cbn; [|rewrite IH]; reflexivity. Qed.

(** [v - v] is +0.0, or NaN when [v] is not finite. *)
Lemma f_sub_diag (v : float64) :
  f_sub v v = S754_zero false \/ f_sub v v = S754_nan.
Proof.
  destruct v as [s|s| |s m e]; unfold f_sub, SFsub.
  - left. destruct s; reflexivity.
  - right. destruct s; reflexivity.
  - right. reflexivity.
  - left. rewrite Z.sub_diag. reflexivity.
Qed.

(** A quotient by +0.0 or by NaN, and 100 times it, is NaN or an
    infinity. *)
Lemma quotient_by_zero_not_finite (r z : float64) :
  z = S754_zero false \/ z = S754_nan ->
  isfinite (observe (f_mul (f_div r z) (of_Z 100))) = false.
Proof.
  intros [-> | ->]; destruct r as [s|s| |s m e]; try destruct s; reflexivity.
Qed.

(** The difference [max - min] of a constant column. *)
Lemma constant_range (x : Q) (n : nat) :
  let col := map Some (repeat x (S n)) in
  to_float64 (scalar_sub (max_of col) (min_of col)) = S754_zero false \/
  to_float64 (scalar_sub (max_of col) (min_of col)) = S754_nan.
Proof.
  cbv zeta. unfold max_of, min_of. rewrite present_map_Some. cbn [repeat].
  destruct (int64_column (map Some (x :: repeat x n))).
  - left. rewrite map_repeat, fold_Zmax_repeat, fold_Zmin_repeat.
    cbn [scalar_sub to_float64]. rewrite Z.sub_diag. reflexivity.
  - rewrite map_repeat, fold_f_max_repeat, fold_f_min_repeat.
    cbn [scalar_sub to_float64]. apply f_sub_diag.
Qed.

(** Whenever a feature column holds the same number in every record,
    whatever the number and however many records, the pass of the
    normalization loop over it raises nothing and yields a value that is
    not finite: NaN or an infinity. *)
Theorem constant_feature_never_gives_a_finite_value
    (d : DataFrame) (category : Py.str) (x : Q) (n : nat) :
  getitem d category = Return (map Num (repeat x (S n))) ->
  exists v,
    normalize [category] [] (mkAnalyzer (Some d)) = ([], mkAnalyzer (Some d), Return [v]) /\
    isfinite (observe v) = false.
Proof.
  intros Hx. rewrite (normalize_step d category [] [] _ Hx).
  eexists. split; [reflexivity|].
  unfold normalized_np. cbv zeta.
  apply quotient_by_zero_not_finite, constant_range.
Qed.

Lemma constant_feature_witness :
  exists v,
    normalize [u "Stress Level"] [] (mkAnalyzer (Some constant_stress_frame))
    = ([], mkAnalyzer (Some constant_stress_frame), Return [v]) /\
    isfinite (observe v) = false.
Proof.
  apply (constant_feature_never_gives_a_finite_value
           constant_stress_frame (u "Stress Level") 5%Q 3).
  reflexivity.
Defined.

(** The three ways a constant column comes out: 5 in four records gives
    NaN, 0.1 in three records gives +inf, 6.1 in three records gives
    -inf (the rounded mean lies above, or below, the value). *)
Example constant_feature_examples :
  observe (normalized_np [5%Q; 5%Q; 5%Q; 5%Q]) = NaN /\
  observe (normalized_np [1 # 10; 1 # 10; 1 # 10]%Q) = PosInf /\
  observe (normalized_np [61 # 10; 61 # 10; 61 # 10]%Q) = NegInf.
Proof. vm_compute. repeat split. Qed.

Section Session.

Variable read_csv : Py.str -> read_result.
Variable fill : Py.str -> nat -> Py.str.

(** A whole session on a missing file: construction reports the missing
    file and leaves an empty frame; the Table Presenter and the Chart
    Suite then each report that there is no data and show nothing; "3"
    ends the session normally. *)
Theorem session_on_a_missing_file :
  read_csv default_path = FileNotFoundError ->
  main read_csv fill [u "1"; u "2"; u "3"]
  = ([ShowError error_title
        (fill (u "Файл '" ++ default_path
               ++ u "' не найден. Проверь путь и повтори попытку.") 60)]
     ++ menu ++ [ShowError error_title (fill (u "Нет данных для отображения") 60)]
     ++ menu ++ [ShowError error_title (u "Нет данных для анализа")]
     ++ menu ++ [Stdout (u "Завершение работы")],
     mkAnalyzer (Some DataFrame_new), Return tt).
Proof.
  intros Hr. unfold main, init, read_file. rewrite Hr.
  unfold show_error_message, bind at 1 2 3 4. cbn [emit ret set_self_df].
  rewrite (setup_on_empty DataFrame_new eq_refl).
  rewrite !run_cons. cbv zeta.
  change (Py.eqb (Py.strip (u "1")) (u "1")) with true. cbv iota.
  rewrite bind_issue, (bind_returns _ _ _ _ _ _ (show_full_dataset_empty fill DataFrame_new eq_refl)).
  rewrite run_cons. cbv zeta.
  change (Py.eqb (Py.strip (u "2")) (u "1")) with false.
  change (Py.eqb (Py.strip (u "2")) (u "2")) with true. cbv iota.
  rewrite bind_issue, (bind_returns _ _ _ _ _ _ (show_analytics_empty DataFrame_new eq_refl)).
  rewrite run_cons. cbv zeta.
  change (Py.eqb (Py.strip (u "3")) (u "1")) with false.
  change (Py.eqb (Py.strip (u "3")) (u "2")) with false.
  change (Py.eqb (Py.strip (u "3")) (u "3")) with true. cbv iota.
  rewrite bind_issue.
  unfold events, after, result, emit. cbn [fst snd app].
  rewrite <- ?app_assoc. reflexivity.
Qed.

End Session.

Lemma session_on_a_missing_file_witness :
  main no_file sample_fill [u "1"; u "2"; u "3"]
  = ([ShowError error_title
        (sample_fill (u "Файл '" ++ default_path
                      ++ u "' не найден. Проверь путь и повтори попытку.") 60)]
     ++ menu ++ [ShowError error_title (sample_fill (u "Нет данных для отображения") 60)]
     ++ menu ++ [ShowError error_title (u "Нет данных для анализа")]
     ++ menu ++ [Stdout (u "Завершение работы")],
     mkAnalyzer (Some DataFrame_new), Return tt).
Proof.
  apply (session_on_a_missing_file no_file sample_fill). reflexivity.
Defined.

(** ** The menu loop as a whole *)

Lemma quiet_ret {A} (p : event -> bool) (a : A) : quiet p (ret a).
Proof. intros s. reflexivity. Qed.

Lemma quiet_lift {A} (p : event -> bool) (o : outcome A) : quiet p (lift o).
Proof. intros s. reflexivity. Qed.

Lemma quiet_self_df (p : event -> bool) : quiet p self_df.
Proof. intros s. unfold self_df. destruct (df s); reflexivity. Qed.

Lemma quiet_emit (p : event -> bool) (ev : event) : p ev = false -> quiet p (emit ev).
Proof. intros H s. unfold emit, events. cbn [fst filter]. rewrite H. reflexivity. Qed.

Lemma quiet_bind {A B} (p : event -> bool) (c : M A) (k : A -> M B) :
  quiet p c -> (forall a, quiet p (k a)) -> quiet p (bind c k).
Proof.
  unfold quiet, events. intros Hc Hk s. unfold bind. specialize (Hc s).
  destruct (c s) as [[t1 s1] [a|e]]; cbn [fst] in *.
  - specialize (Hk a s1). destruct (k a s1) as [[t2 s2] r2]. cbn [fst] in *.
    rewrite filter_app, Hc, Hk. reflexivity.
  - exact Hc.
Qed.

Ltac quiet_steps :=
  repeat first
    [ apply quiet_ret | apply quiet_lift | apply quiet_self_df
    | apply quiet_emit; solve [auto]
    | assumption
    | apply quiet_bind; [|intros ?]
    | match goal with
      | |- quiet _ (if ?b then _ else _) => destruct b
      | |- quiet _ (let _ := _ in _) => cbv zeta
      end ].

Lemma quiet_named_columns (p : event -> bool) (d : DataFrame) (names : list Py.str) :
  quiet p (named_columns d names).
Proof. unfold named_columns. quiet_steps. Qed.

Lemma quiet_palette_covers (p : event -> bool) (palette : list (Py.str * Py.str))
    (d : DataFrame) (x : Py.str) :
  quiet p (palette_covers palette d x).
Proof. unfold palette_covers. quiet_steps. Qed.

(** The normalization loop issues no event. *)
Lemma quiet_normalize (p : event -> bool) (cats : list Py.str) (acc : list float64) :
  quiet p (normalize cats acc).
Proof.
  revert acc. induction cats as [|category cats IH]; intros acc; cbn [normalize].
  - apply quiet_ret.
  - quiet_steps. apply IH.
Qed.

(** Past the test for an empty frame the Chart Suite issues charts and
    nothing else. *)
Lemma charts_only (p : event -> bool) (d : DataFrame) :
  (forall c, p (Show c) = false) ->
  empty d = false ->
  filter p (events (show_analytics (mkAnalyzer (Some d)))) = [].
Proof.
  intros Hp He. unfold show_analytics. rewrite bind_self_df, He.
  match goal with
  | |- filter ?p (events (?c ?s)) = [] => refine ((_ : quiet p c) s)
  end.
  repeat first
    [ apply quiet_self_df | apply quiet_emit; solve [apply Hp]
    | apply quiet_named_columns | apply quiet_palette_covers
    | apply quiet_normalize
    | apply quiet_bind; [|intros ?] ].
Qed.

(** The Chart Suite writes nothing to the console, whatever it is
    called on. *)
Lemma console_free_show_analytics (s : Analyzer) :
  filter is_console (events (show_analytics s)) = [].
Proof.
  destruct s as [[d|]]; [|reflexivity].
  destruct (empty d) eqn:He.
  - rewrite (show_analytics_empty d He). reflexivity.
  - apply charts_only; [reflexivity | exact He].
Qed.

Lemma prompts_of_menu : filter is_prompt menu = [Prompt menu_prompt].
Proof. reflexivity. Qed.

Lemma no_prompt_if_console_free (t : list event) :
  filter is_console t = [] -> filter is_prompt t = [].
Proof.
  apply filter_weaker. intros [] H; try discriminate; reflexivity.
Qed.

Section Loop.

Variable fill : Py.str -> nat -> Py.str.

(** How the loop ends. On a constructed object on which the Chart Suite
    returns, the loop returns normally exactly when some line read has
    the choice "3"; it then has prompted once per line up to and
    including the first such line and reads nothing after it. With no
    such line it prompts once more than there are lines and ends with
    EOFError. Either way the object is left as it was. *)
Theorem run_ends_at_the_first_exit_or_at_end_of_input
    (stdin : list Py.str) (d : DataFrame) :
  result (show_analytics (mkAnalyzer (Some d))) = Return tt ->
  let r := run fill stdin (mkAnalyzer (Some d)) in
  after r = mkAnalyzer (Some d) /\
  match first_exit stdin with
  | Some k => result r = Return tt /\ length (filter is_prompt (events r)) = S k
  | None =>
      result r = Raise EOFError /\
      length (filter is_prompt (events r)) = S (length stdin)
  end.
Proof.
  intros Hcharts. cbv zeta.
  set (s := mkAnalyzer (Some d)) in *.
  assert (Hsa : show_analytics s = (events (show_analytics s), s, Return tt)).
  { rewrite (run_eta (show_analytics s)) at 1.
    rewrite (preserving_show_analytics s), Hcharts. reflexivity. }
  pose proof (no_prompt_if_console_free _ (console_free_show_analytics s)) as Hqa.
  destruct (show_full_dataset_returns fill d) as (tt1 & Hsf & Hqf).
  apply no_prompt_if_console_free in Hqf. fold s in Hsf.
  split; [apply preserving_run|].
  induction stdin as [|line rest IH].
  - rewrite run_nil. cbn [first_exit]. split; reflexivity.
  - rewrite run_cons, bind_issue. cbv zeta. cbn [first_exit].
    destruct (eqb_spec (Py.strip line) (u "1")) as [E1|N1].
    + rewrite E1. change (Py.eqb (u "1") (u "3")) with false. cbv iota.
      rewrite (bind_returns _ _ _ _ _ _ Hsf).
      unfold events, after, result in *. cbn [fst snd] in *.
      rewrite !filter_app, prompts_of_menu, Hqf. cbn [app length].
      destruct (first_exit rest) as [k|]; cbn [option_map];
        destruct IH as [IH1 IH2]; rewrite IH2; split; auto.
    + destruct (eqb_spec (Py.strip line) (u "2")) as [E2|N2].
      * rewrite E2. change (Py.eqb (u "2") (u "3")) with false. cbv iota.
        rewrite (bind_returns _ _ _ _ _ _ Hsa).
        unfold events, after, result in *. cbn [fst snd] in *.
        rewrite !filter_app, prompts_of_menu, Hqa. cbn [app length].
        destruct (first_exit rest) as [k|]; cbn [option_map];
          destruct IH as [IH1 IH2]; rewrite IH2; split; auto.
      * destruct (Py.eqb (Py.strip line) (u "3")).
        -- unfold events, result, emit. cbn [fst snd].
           rewrite filter_app, prompts_of_menu. split; reflexivity.
        -- rewrite bind_emit.
           unfold events, after, result in *. cbn [fst snd] in *.
           rewrite filter_app, prompts_of_menu. cbn [app filter is_prompt length].
           destruct (first_exit rest) as [k|]; cbn [option_map];
             destruct IH as [IH1 IH2]; rewrite IH2; split; auto.
Qed.

(** An exception of the Chart Suite is not caught by the loop: choosing
    "2" then ends [run] with that exception, after the menu and whatever
    the Chart Suite had shown, and no further line is read. *)
Theorem chart_suite_exception_ends_the_loop
    (line : Py.str) (rest : list Py.str) (s s' : Analyzer)
    (t : list event) (e : exn) :
  Py.strip line = u "2" ->
  show_analytics s = (t, s', Raise e) ->
  run fill (line :: rest) s = (menu ++ t, s', Raise e) /\
  length (filter is_prompt (menu ++ t)) = 1.
Proof.
  intros Hc Hraise. split.
  - rewrite run_cons, bind_issue. cbv zeta. rewrite Hc.
    change (Py.eqb (u "2") (u "1")) with false.
    change (Py.eqb (u "2") (u "2")) with true. cbv iota.
    rewrite (bind_raises _ _ _ _ _ _ Hraise). reflexivity.
  - pose proof (no_prompt_if_console_free _ (console_free_show_analytics s)) as Hq.
    rewrite Hraise in Hq. unfold events in Hq. cbn [fst] in Hq.
    rewrite filter_app, prompts_of_menu, Hq. reflexivity.
Qed.

End Loop.

(** ** Construction and derivation: failures and invariants *)

Section Construction.

Variable read_csv : Py.str -> read_result.
Variable fill : Py.str -> nat -> Py.str.

(** A file that has complete records but no quality-of-sleep column
    stops the program while the object is being built: [main] ends with
    KeyError for that column, whatever the input holds; no dialog is
    shown, no menu is written and no line is read. *)
Theorem missing_quality_column_stops_construction
    (raw : DataFrame) (stdin : list Py.str) :
  read_csv default_path = Parsed raw ->
  empty (dropna raw) = false ->
  col_index quality_column (columns raw) = None ->
  main read_csv fill stdin
  = ([], mkAnalyzer (Some (dropna raw)), Raise (KeyError quality_column)).
Proof.
  intros Hr He Hcol. unfold main.
  rewrite (bind_raises (init read_csv fill default_path) _ (mkAnalyzer None)
                       [] (mkAnalyzer (Some (dropna raw))) (KeyError quality_column));
    [reflexivity|].
  rewrite (init_loaded read_csv fill default_path raw Hr).
  apply setup_without_scores; [exact He|].
  unfold getitem, dropna. cbn [columns]. rewrite Hcol. reflexivity.
Qed.

End Construction.

Lemma missing_quality_column_witness :
  main (only_file no_quality_frame) sample_fill [u "1"; u "3"]
  = ([], mkAnalyzer (Some (dropna no_quality_frame)), Raise (KeyError quality_column)).
Proof.
  apply (missing_quality_column_stops_construction
           (only_file no_quality_frame) sample_fill no_quality_frame [u "1"; u "3"]);
    reflexivity.
Defined.

Lemma cut_one_values (bins : list Q) (labels : list Py.str) (il : bool) (s : Q) :
  cut_one bins labels il s = NA \/
  exists l, In l labels /\ cut_one bins labels il s = Str l.
Proof.
  unfold cut_one.
  set (ids := if il && Qeq_bool s (hd 0%Q bins) then 1 else searchsorted_left bins s).
  destruct ((ids =? length bins) || (ids =? 0)); [left; reflexivity|].
  destruct (nth_error labels (ids - 1)) as [l|] eqn:Hl; [|left; reflexivity].
  right. exists l. split; [apply (nth_error_In _ _ Hl) | reflexivity].
Qed.

Lemma cut_values (x : list value) (bins : list Q) (labels : list Py.str) (il : bool)
    (c : list value) :
  cut x bins labels il = Return c ->
  Forall (fun v => v = NA \/ exists l, In l labels /\ v = Str l) c.
Proof.
  revert c. induction x as [|v x IH]; intros c; simpl.
  - intros [= <-]. constructor.
  - destruct v; try discriminate;
      destruct (cut x bins labels il) as [c'|]; simpl; try discriminate;
      intros [= <-]; constructor; try (apply IH; reflexivity).
    + apply cut_one_values.
    + left. reflexivity.
Qed.

Lemma length_set_nth (j : nat) (v : value) (r : list value) :
  length (set_nth j v r) = length r.
Proof.
  revert j; induction r as [|x r IH]; intros [|j]; simpl; try reflexivity.
  rewrite IH. reflexivity.
Qed.

Lemma rectangular_setitem (d : DataFrame) (name : Py.str) (vals : list value) :
  rectangular d = true -> rectangular (setitem d name vals) = true.
Proof.
  unfold rectangular, setitem. intros H. rewrite forallb_forall in H.
  destruct (col_index name (columns d)); cbn [rows columns];
    apply forallb_forall; intros r Hin; apply in_map_iff in Hin;
    destruct Hin as ([r0 v] & <- & Hin); apply in_combine_l in Hin;
    specialize (H r0 Hin); apply Nat.eqb_eq in H; apply Nat.eqb_eq; cbn [fst snd].
  - rewrite length_set_nth. exact H.
  - rewrite !length_app, H. reflexivity.
Qed.

(** What a completed derivation leaves behind. On a rectangular frame
    with records, when [setup_quality_categories] returns normally: the
    frame is rectangular again, keeps its records, has the category
    column appended as the last column (or overwritten in place when the
    file already had a column of that name), and that column holds
    nothing but the three labels and missing values. *)
Theorem derivation_leaves_a_well_formed_category_column
    (d d' : DataFrame) (t : list event) :
  rectangular d = true ->
  empty d = false ->
  setup_quality_categories (mkAnalyzer (Some d)) = (t, mkAnalyzer (Some d'), Return tt) ->
  t = [] /\
  rectangular d' = true /\
  length (rows d') = length (rows d) /\
  columns d' = match col_index category_column (columns d) with
               | Some _ => columns d
               | None => columns d ++ [category_column]
               end /\
  exists col,
    getitem d' category_column = Return col /\
    length col = length (rows d) /\
    Forall (fun v => v = NA \/ exists l, In l sleep_quality_labels /\ v = Str l) col.
Proof.
  intros Hrect He Hrun.
  destruct (getitem d quality_column) as [x|e] eqn:Hx;
    [|rewrite (setup_without_scores d e He Hx) in Hrun; discriminate].
  destruct (cut x sleep_quality_bins sleep_quality_labels true) as [c|e] eqn:Hc;
    [|rewrite (setup_cut_raises d x e He Hx Hc) in Hrun; discriminate].
  rewrite (setup_assigns d x c He Hx Hc) in Hrun.
  injection Hrun as <- <-.
  assert (Hlen : length c = length (rows d)).
  { rewrite (cut_length _ _ _ _ _ Hc). apply (getitem_length _ _ _ Hx). }
  split; [reflexivity|]. split; [apply rectangular_setitem, Hrect|].
  split; [apply setitem_rows_length, Hlen|]. split.
  - unfold setitem. destruct (col_index category_column (columns d)); reflexivity.
  - exists c. split; [apply getitem_setitem_same; assumption|].
    split; [exact Hlen|]. apply (cut_values _ _ _ _ _ Hc).
Qed.

Lemma derivation_witness :
  exists d',
    setup_quality_categories (mkAnalyzer (Some scores_frame))
    = ([], mkAnalyzer (Some d'), Return tt) /\
    rectangular d' = true /\
    length (rows d') = length (rows scores_frame) /\
    columns d' = columns scores_frame ++ [category_column] /\
    exists col,
      getitem d' category_column = Return col /\
      length col = length (rows scores_frame) /\
      Forall (fun v => v = NA \/ exists l, In l sleep_quality_labels /\ v = Str l) col.
Proof.
  eexists. split; [vm_compute; reflexivity|].
  refine (proj2 (derivation_leaves_a_well_formed_category_column
                   scores_frame _ [] eq_refl eq_refl _)).
  vm_compute. reflexivity.
Defined.

(** The derived category is monotone in the score: of two scores within
    [0,10], the higher one never gets the lower label. *)
Theorem category_is_monotone_in_the_score (s1 s2 : Q) :
  (0 <= s1)%Q -> (s1 <= s2)%Q -> (s2 <= 10)%Q ->
  exists r1 r2,
    label_rank (cut_one sleep_quality_bins sleep_quality_labels true s1) = Some r1 /\
    label_rank (cut_one sleep_quality_bins sleep_quality_labels true s2) = Some r2 /\
    r1 <= r2.
Proof.
  intros H0 H12 H10.
  assert (Hcase : forall s, (0 <= s <= 10)%Q ->
            let c := cut_one sleep_quality_bins sleep_quality_labels true s in
            (c = Str (u "Плохое") /\ (s <= 3)%Q) \/
            (c = Str (u "Среднее") /\ (3 < s <= 6)%Q) \/
            (c = Str (u "Хорошее") /\ (6 < s)%Q)).
  { intros s Hs c. destruct (quality_category_spec s) as (L & Md & Hg & _).
    fold c in L, Md, Hg.
    destruct (Qlt_le_dec 3 s) as [H3|H3].
    - destruct (Qlt_le_dec 6 s) as [H6|H6].
      + right. right. split; [apply Hg; lra | exact H6].
      + right. left. split; [apply Md; lra | lra].
    - left. split; [apply L; lra | exact H3]. }
  destruct (Hcase s1 ltac:(lra)) as [[-> B1]|[[-> B1]|[-> B1]]];
  destruct (Hcase s2 ltac:(lra)) as [[-> B2]|[[-> B2]|[-> B2]]];
    try lra;
    (eexists; eexists; split; [vm_compute; reflexivity|];
     split; [vm_compute; reflexivity | lia]).
Qed.

Lemma category_is_monotone_witness :
  exists r1 r2,
    label_rank (cut_one sleep_quality_bins sleep_quality_labels true 3%Q) = Some r1 /\
    label_rank (cut_one sleep_quality_bins sleep_quality_labels true (7 # 2)) = Some r2 /\
    r1 <= r2.
Proof.
  apply (category_is_monotone_in_the_score 3%Q (7 # 2)); unfold Qle; simpl; lia.
Defined.

(** ** The normalization loop on frames it cannot handle *)

(** The loop over the features stops at the first feature the frame has
    no column for: when the features before it are columns of numbers,
    the loop ends with KeyError naming that feature, whatever follows it
    in the list; nothing is drawn and the object is left as it was. *)
Theorem normalization_stops_at_the_first_missing_feature
    (d : DataFrame) (before : list Py.str) (missing : Py.str) (later : list Py.str)
    (acc : list float64) :
  (forall feature, In feature before ->
                   exists xs, getitem d feature = Return (map Num xs)) ->
  col_index missing (columns d) = None ->
  normalize (before ++ missing :: later) acc (mkAnalyzer (Some d))
  = ([], mkAnalyzer (Some d), Raise (KeyError missing)).
Proof.
  revert acc. induction before as [|f before IH]; intros acc Hnum Hmiss.
  - cbn [app normalize]. rewrite bind_self_df. unfold getitem. rewrite Hmiss.
    reflexivity.
  - destruct (Hnum f (or_introl eq_refl)) as (xs & Hx).
    cbn [app]. rewrite (normalize_step d f _ acc xs Hx).
    apply IH; [|exact Hmiss]. intros g Hg. apply Hnum. right. exact Hg.
Qed.

Lemma normalization_missing_feature_witness :
  normalize categories [] (mkAnalyzer (Some no_heart_rate_frame))
  = ([], mkAnalyzer (Some no_heart_rate_frame), Raise (KeyError (u "Heart Rate"))).
Proof.
  apply (normalization_stops_at_the_first_missing_feature
           no_heart_rate_frame
           [u "Sleep Duration"; u "Quality of Sleep"; u "Physical Activity Level";
            u "Stress Level"]
           (u "Heart Rate") [u "Daily Steps"] []).
  - intros feature Hin. cbn in Hin. destruct Hin as [<-|[<-|[<-|[<-|[]]]]].
    + exists [6%Q; 8%Q]. reflexivity.
    + exists [5%Q; 9%Q]. reflexivity.
    + exists [30%Q; 75%Q]. reflexivity.
    + exists [8%Q; 3%Q]. reflexivity.
  - reflexivity.
Defined.

(** ** Whitespace around a menu line *)

Lemma lstrip_spaces (ws l : Py.str) :
  forallb Py.isspace ws = true -> Py.lstrip (ws ++ l) = Py.lstrip l.
Proof.
  induction ws as [|c ws IH]; cbn [forallb app Py.lstrip]; [reflexivity|].
  intros H. apply andb_true_iff in H. destruct H as [Hc Hws].
  rewrite Hc. apply IH, Hws.
Qed.

Lemma lstrip_all_spaces (ws : Py.str) :
  forallb Py.isspace ws = true -> Py.lstrip ws = [].
Proof.
  intros H. rewrite <- (app_nil_r ws), (lstrip_spaces ws [] H). reflexivity.
Qed.

Lemma lstrip_app (l ws : Py.str) :
  Py.lstrip l <> [] -> Py.lstrip (l ++ ws) = Py.lstrip l ++ ws.
Proof.
  induction l as [|c l IH]; cbn [app Py.lstrip]; [congruence|].
  destruct (Py.isspace c); [exact IH | reflexivity].
Qed.

Lemma forallb_rev {A} (p : A -> bool) (l : list A) :
  forallb p (rev l) = forallb p l.
Proof.
  induction l as [|a l IH]; [reflexivity|].
  cbn [rev forallb]. rewrite forallb_app, IH. cbn [forallb].
  rewrite andb_true_r. apply andb_comm.
Qed.

Lemma rstrip_spaces (l ws : Py.str) :
  forallb Py.isspace ws = true -> Py.rstrip (l ++ ws) = Py.rstrip l.
Proof.
  intros H. unfold Py.rstrip. rewrite rev_app_distr, lstrip_spaces; [reflexivity|].
  rewrite forallb_rev. exact H.
Qed.

(** [strip] does not see blanks added on either side. *)
Lemma strip_padded (before l after_ : Py.str) :
  forallb Py.isspace before = true -> forallb Py.isspace after_ = true ->
  Py.strip (before ++ l ++ after_) = Py.strip l.
Proof.
  intros Hb Ha. unfold Py.strip. rewrite lstrip_spaces by exact Hb.
  destruct (Py.lstrip l) as [|c l'] eqn:Hl.
  - assert (Hall : forallb Py.isspace l = true).
    { clear -Hl. induction l as [|c l IH]; [reflexivity|].
      cbn [Py.lstrip] in Hl. cbn [forallb].
      destruct (Py.isspace c); [apply IH, Hl | discriminate]. }
    rewrite lstrip_all_spaces; [reflexivity|].
    rewrite forallb_app, Hall, Ha. reflexivity.
  - rewrite lstrip_app by (rewrite Hl; discriminate).
    rewrite Hl. apply rstrip_spaces, Ha.
Qed.

(** The menu does not see whitespace around a line: a line padded on
    either side with any Python whitespace (blanks, tabs, no-break
    spaces, ...) is handled exactly as the bare line, for every choice
    and every state. *)
Theorem menu_ignores_surrounding_whitespace
    (fill : Py.str -> nat -> Py.str)
    (before line after_ : Py.str) (rest : list Py.str) (s : Analyzer) :
  forallb Py.isspace before = true -> forallb Py.isspace after_ = true ->
  run fill ((before ++ line ++ after_) :: rest) s = run fill (line :: rest) s.
Proof.
  intros Hb Ha. rewrite !run_cons, !bind_issue. cbv zeta.
  rewrite (strip_padded before line after_ Hb Ha). reflexivity.
Qed.

Lemma menu_ignores_whitespace_witness :
  run sample_fill (([9%N; 160%N] ++ u "2" ++ [32%N; 12288%N]) :: [u "3"])
      (mkAnalyzer (Some three_rows))
  = run sample_fill (u "2" :: [u "3"]) (mkAnalyzer (Some three_rows)).
Proof.
  apply (menu_ignores_surrounding_whitespace
           sample_fill [9%N; 160%N] (u "2") [32%N; 12288%N] [u "3"]
           (mkAnalyzer (Some three_rows)));
    reflexivity.
Defined.

(** ** The grid of the Table Presenter *)

Lemma headings_app (t1 t2 : list event) :
  headings (t1 ++ t2) = headings t1 ++ headings t2.
Proof.
  induction t1 as [|ev t1 IH]; simpl; [reflexivity|].
  destruct ev; simpl; rewrite ?IH; reflexivity.
Qed.

Lemma headings_of_columns (cols : list Py.str) :
  headings (flat_map (fun col => [TreeHeading col; TreeColumn col 120 (u "w")]) cols)
  = cols.
Proof. induction cols as [|c cols IH]; simpl; [|rewrite IH]; reflexivity. Qed.

Lemma headings_of_rows (irs : list (nat * list value)) :
  headings (flat_map (fun ir => [TreeInsert (snd ir) (row_tag (fst ir))]) irs) = [].
Proof. induction irs as [|ir irs IH]; simpl; auto. Qed.

(** The table has one heading per column of the frame, in the frame's
    order (the derived category column included once it exists), and on
    a rectangular frame every row put into the table brings exactly one
    value per heading. *)
Theorem table_grid_matches_the_frame
    (fill : Py.str -> nat -> Py.str) (d : DataFrame) :
  empty d = false ->
  rectangular d = true ->
  let t := events (show_full_dataset fill (mkAnalyzer (Some d))) in
  headings t = columns d /\
  Forall (fun shown => length (fst shown) = length (headings t)) (inserted t).
Proof.
  intros He Hrect t. subst t.
  rewrite (show_full_dataset_nonempty fill d He). unfold events. cbn [fst].
  assert (Hh : headings (table_events d) = columns d).
  { unfold table_events.
    rewrite !headings_app, headings_of_columns, headings_of_rows.
    cbn [headings app]. apply app_nil_r. }
  split; [exact Hh|]. rewrite Hh, inserted_table_events.
  apply Forall_forall. intros [r tag] Hin. cbn [fst].
  apply in_map_iff in Hin. destruct Hin as ([i r0] & [= <- <-] & Hin).
  cbn [snd]. apply (rectangular_rows d r0 Hrect).
  apply (in_map snd) in Hin. rewrite map_snd_enumerate in Hin. cbn [snd] in Hin.
  rewrite <- (firstn_skipn 200 (rows d)). apply in_or_app. left. exact Hin.
Qed.

Lemma table_grid_witness :
  let t := events (show_full_dataset sample_fill (mkAnalyzer (Some three_rows))) in
  headings t = columns three_rows /\
  Forall (fun shown => length (fst shown) = length (headings t)) (inserted t).
Proof.
  apply (table_grid_matches_the_frame sample_fill three_rows); reflexivity.
Defined.

(** ** The polar chart and its annotations *)

(** Bars and annotations of the polar chart fit together.  When the
    dataset has records, the six features are columns of numbers and the
    gender column holds 'Male' and 'Female' only, the chart is drawn
    from six values, the results of the normalization of the six
    features in their order: one bar per value at the slots 0..5 in the
    fixed colors, with the value as its length, and one text per bar at
    the same slot, placed at the value plus 5 and reading the name of
    the feature and, on a second line, the value with one decimal. *)
Theorem polar_annotations_match_the_bars (d : DataFrame) :
  empty d = false ->
  (forall feature, In feature categories ->
                   exists xs, getitem d feature = Return (map Num xs)) ->
  (exists g, getitem d (u "Gender") = Return g /\ Forall male_or_female g) ->
  let t := events (show_analytics (mkAnalyzer (Some d))) in
  exists vs : list float64,
    Forall2 (fun feature v =>
               exists xs, getitem d feature = Return (map Num xs) /\ v = normalized_np xs)
            categories vs /\
    map slot (polar_bars t) = seq 0 6 /\
    map color (polar_bars t) = colors /\
    map height (polar_bars t) = map observe vs /\
    map note_slot (polar_notes t) = seq 0 6 /\
    map note_radius (polar_notes t) = map (fun v => observe (f_add v (of_Z 5))) vs /\
    map note_text (polar_notes t)
    = map (fun lv => fst lv ++ [10%N] ++ format_1f (snd lv)) (combine categories vs).
Proof.
  intros He Hnum Hgender t. subst t.
  destruct (normalize_numeric d categories [] Hnum) as (vs & Hrun & Hall).
  cbn [app] in Hrun.
  rewrite (show_analytics_nonempty d vs He (features_accepted d Hnum Hgender) Hrun).
  exists vs. split; [exact Hall|].
  apply Forall2_length in Hall. cbn [categories length] in Hall.
  do 7 (destruct vs as [|? vs]; try discriminate Hall).
  repeat split.
Qed.

Lemma polar_annotations_witness :
  let t := events (show_analytics (mkAnalyzer (Some features_frame))) in
  exists vs : list float64,
    Forall2 (fun feature v =>
               exists xs, getitem features_frame feature = Return (map Num xs) /\
                          v = normalized_np xs)
            categories vs /\
    map slot (polar_bars t) = seq 0 6 /\
    map color (polar_bars t) = colors /\
    map height (polar_bars t) = map observe vs /\
    map note_slot (polar_notes t) = seq 0 6 /\
    map note_radius (polar_notes t) = map (fun v => observe (f_add v (of_Z 5))) vs /\
    map note_text (polar_notes t)
    = map (fun lv => fst lv ++ [10%N] ++ format_1f (snd lv)) (combine categories vs).
Proof.
  apply (polar_annotations_match_the_bars features_frame); [reflexivity| |].
  - intros feature Hin. cbn in Hin.
    destruct Hin as [<-|[<-|[<-|[<-|[<-|[<-|[]]]]]]].
    + exists [2%Q; 4%Q; 6%Q; 8%Q]. reflexivity.
    + exists [5%Q; 6%Q; 7%Q; 9%Q]. reflexivity.
    + exists [30%Q; 45%Q; 60%Q; 75%Q]. reflexivity.
    + exists [8%Q; 6%Q; 5%Q; 3%Q]. reflexivity.
    + exists [70%Q; 72%Q; 68%Q; 65%Q]. reflexivity.
    + exists [3000%Q; 5000%Q; 8000%Q; 10000%Q]. reflexivity.
  - exists [Str (u "Male"); Str (u "Female"); Str (u "Male"); Str (u "Female")].
    split; [reflexivity|].
    repeat first [apply Forall_nil
                 | apply Forall_cons; [first [left; reflexivity | right; reflexivity]|]].
Defined.

(** The texts on the chart of [constant_stress_frame]: 43.75 is printed
    as 43.8, the bar that is NaN as nan. *)
Example polar_annotation_texts :
  map note_text
      (polar_notes (events (show_analytics (mkAnalyzer (Some constant_stress_frame)))))
  = [u "Sleep Duration" ++ [10%N] ++ u "50.0";
     u "Quality of Sleep" ++ [10%N] ++ u "43.8";
     u "Physical Activity Level" ++ [10%N] ++ u "50.0";
     u "Stress Level" ++ [10%N] ++ u "nan";
     u "Heart Rate" ++ [10%N] ++ u "53.6";
     u "Daily Steps" ++ [10%N] ++ u "50.0"].
Proof. vm_compute. reflexivity. Qed.

(** ** Dialogs in a session with data *)

Lemma filter_events_bind {A B} (p : event -> bool) (c : M A) (k : A -> M B) (s : Analyzer) :
  filter p (events (c s)) = [] ->
  (forall a, filter p (events (k a (after (c s)))) = []) ->
  filter p (events (bind c k s)) = [].
Proof.
  intros Hc Hk. unfold bind.
  destruct (c s) as [[t1 s1] [a|e]]; unfold events, after in *; cbn [fst snd] in *.
  - specialize (Hk a). destruct (k a s1) as [[t2 s2] r2]. cbn [fst] in *.
    rewrite filter_app, Hc, Hk. reflexivity.
  - exact Hc.
Qed.

Lemma dialog_free_show_analytics (d : DataFrame) :
  empty d = false ->
  filter is_dialog (events (show_analytics (mkAnalyzer (Some d)))) = [].
Proof. apply charts_only. reflexivity. Qed.

Lemma dialog_free_table_events (d : DataFrame) :
  filter is_dialog (table_events d) = [].
Proof.
  unfold table_events. rewrite !filter_app. simpl.
  assert (H1 : forall cols,
             filter is_dialog
               (flat_map (fun col => [TreeHeading col; TreeColumn col 120 (u "w")]) cols) = []).
  { induction cols as [|c cols IH]; simpl; auto. }
  assert (H2 : forall irs : list (nat * list value),
             filter is_dialog
               (flat_map (fun ir => [TreeInsert (snd ir) (row_tag (fst ir))]) irs) = []).
  { induction irs as [|ir irs IH]; simpl; auto. }
  rewrite H1, H2. reflexivity.
Qed.

(** With records in the dataset no error dialog is ever shown: whatever
    lines the menu loop reads and however it ends (farewell, end of
    input, or an exception out of the Chart Suite), its trace holds no
    dialog. *)
Theorem no_dialog_in_a_session_with_data
    (fill : Py.str -> nat -> Py.str) (d : DataFrame) (stdin : list Py.str) :
  empty d = false ->
  filter is_dialog (events (run fill stdin (mkAnalyzer (Some d)))) = [].
Proof.
  intros He. set (s := mkAnalyzer (Some d)).
  induction stdin as [|line rest IH]; [reflexivity|].
  rewrite run_cons. cbv zeta.
  apply filter_events_bind; [reflexivity|]. intros _.
  change (after (issue menu s)) with s.
  destruct (Py.eqb (Py.strip line) (u "1")).
  - apply filter_events_bind.
    + unfold s. rewrite (show_full_dataset_nonempty fill d He).
      apply dialog_free_table_events.
    + intros _. rewrite (preserving_show_full_dataset fill s). exact IH.
  - destruct (Py.eqb (Py.strip line) (u "2")).
    + apply filter_events_bind.
      * apply (dialog_free_show_analytics d He).
      * intros _. rewrite (preserving_show_analytics s). exact IH.
    + destruct (Py.eqb (Py.strip line) (u "3")); [reflexivity|].
      apply filter_events_bind; [reflexivity|]. intros _. exact IH.
Qed.

Lemma no_dialog_witness :
  filter is_dialog
         (events (run sample_fill [u "2"; u "1"; u "3"]
                      (mkAnalyzer (Some no_heart_rate_frame)))) = [].
Proof.
  apply (no_dialog_in_a_session_with_data
           sample_fill no_heart_rate_frame [u "2"; u "1"; u "3"]).
  reflexivity.
Defined.

Lemma run_ends_witness :
  let r := run sample_fill [u "1"; u "x"; u " 3 "; u "2"]
               (mkAnalyzer (Some features_frame)) in
  after r = mkAnalyzer (Some features_frame) /\
  match first_exit [u "1"; u "x"; u " 3 "; u "2"] with
  | Some k => result r = Return tt /\ length (filter is_prompt (events r)) = S k
  | None =>
      result r = Raise EOFError /\
      length (filter is_prompt (events r)) = S (length [u "1"; u "x"; u " 3 "; u "2"])
  end.
Proof.
  apply (run_ends_at_the_first_exit_or_at_end_of_input
           sample_fill [u "1"; u "x"; u " 3 "; u "2"] features_frame).
  vm_compute. reflexivity.
Defined.

Lemma chart_suite_exception_witness :
  let s := mkAnalyzer (Some no_heart_rate_frame) in
  run sample_fill (u "2" :: [u "1"; u "3"]) s
  = (menu ++ events (show_analytics s), s, Raise (KeyError (u "Heart Rate"))) /\
  length (filter is_prompt (menu ++ events (show_analytics s))) = 1.
Proof.
  apply (chart_suite_exception_ends_the_loop
           sample_fill (u "2") [u "1"; u "3"]
           (mkAnalyzer (Some no_heart_rate_frame)) (mkAnalyzer (Some no_heart_rate_frame))
           (events (show_analytics (mkAnalyzer (Some no_heart_rate_frame))))
           (KeyError (u "Heart Rate")));
    vm_compute; reflexivity.
Defined.

(** ** The text of the error dialogs: C8 *)

Lemma sample_fill_fits (text : Py.str) (width : nat) :
  length text <= width -> sample_fill text width = text.
Proof.
  intros H. unfold sample_fill. destruct (length text) eqn:E; [reflexivity|].
  cbn [chop]. rewrite E. rewrite (proj2 (Nat.leb_le _ _) H). reflexivity.
Qed.

Lemma every_ret {A} (P : event -> Prop) (a : A) : every_event P (ret a).
Proof. intros s. constructor. Qed.

Lemma every_lift {A} (P : event -> Prop) (o : outcome A) : every_event P (lift o).
Proof. intros s. constructor. Qed.

Lemma every_self_df (P : event -> Prop) : every_event P self_df.
Proof. intros s. unfold self_df. destruct (df s); constructor. Qed.

Lemma every_set_self_df (P : event -> Prop) (d : DataFrame) :
  every_event P (set_self_df d).
Proof. intros s. constructor. Qed.

Lemma every_emit (P : event -> Prop) (ev : event) : P ev -> every_event P (emit ev).
Proof. intros H s. repeat constructor. exact H. Qed.

Lemma every_bind {A B} (P : event -> Prop) (c : M A) (k : A -> M B) :
  every_event P c -> (forall a, every_event P (k a)) -> every_event P (bind c k).
Proof.
  unfold every_event, events. intros Hc Hk s. unfold bind. specialize (Hc s).
  destruct (c s) as [[t1 s1] [a|e]]; cbn [fst] in *.
  - specialize (Hk a s1). destruct (k a s1) as [[t2 s2] r2]. cbn [fst] in *.
    apply Forall_app. split; assumption.
  - exact Hc.
Qed.

Lemma every_for_each {A} (P : event -> Prop) (l : list A) (body : A -> M unit) :
  (forall a, every_event P (body a)) -> every_event P (for_each l body).
Proof.
  intros Hb. induction l as [|a l IH]; cbn [for_each].
  - apply every_ret.
  - apply every_bind; [apply Hb | intros _; exact IH].
Qed.

Lemma every_normalize (P : event -> Prop) (cats : list Py.str) (acc : list float64) :
  every_event P (normalize cats acc).
Proof.
  revert acc. induction cats as [|category cats IH]; intros acc; cbn [normalize].
  - apply every_ret.
  - repeat first [apply every_self_df | apply every_lift | apply IH
                 | apply every_bind; [|intros ?]
                 | match goal with |- every_event _ (let _ := _ in _) => cbv zeta end].
Qed.

Section Wrap.

Variable read_csv : Py.str -> read_result.
Variable fill : Py.str -> nat -> Py.str.

(** What is taken of [textwrap.fill]: a text of words with single
    blanks between them that fits the width comes back as it is. *)
Hypothesis fill_fits :
  forall text, plain text = true -> length text <= 60 -> fill text 60 = text.

Lemma no_data_for_analysis_fits :
  fill (u "Нет данных для анализа") 60 = u "Нет данных для анализа".
Proof. apply fill_fits; [reflexivity | vm_compute; lia]. Qed.

Ltac wrapped_steps :=
  repeat first
    [ apply every_ret | apply every_lift | apply every_self_df
    | apply every_set_self_df | apply every_normalize
    | apply every_emit;
      first [exact I | split; [reflexivity | eexists; reflexivity]]
    | assumption
    | apply every_for_each; intros ?
    | apply every_bind; [|intros ?]
    | match goal with
      | |- every_event _ (if ?b then _ else _) => destruct b
      | |- every_event _ (match ?r with
                          | Parsed _ => _
                          | FileNotFoundError => _
                          | OtherException _ => _
                          end) => destruct r
      | |- every_event _ (let _ := _ in _) => cbv zeta
      end ].

Lemma wrapped_init (path : Py.str) : every_event (wrapped fill) (init read_csv fill path).
Proof.
  unfold init, read_file, setup_quality_categories, show_error_message. wrapped_steps.
Qed.

Lemma wrapped_show_full_dataset : every_event (wrapped fill) (show_full_dataset fill).
Proof. unfold show_full_dataset, show_error_message. wrapped_steps. Qed.

Lemma wrapped_show_analytics : every_event (wrapped fill) show_analytics.
Proof.
  unfold show_analytics, named_columns, palette_covers. wrapped_steps.
  apply every_emit. split; [reflexivity|].
  exists (u "Нет данных для анализа"). symmetry. apply no_data_for_analysis_fits.
Qed.

Lemma wrapped_run (stdin : list Py.str) : every_event (wrapped fill) (run fill stdin).
Proof.
  induction stdin as [|line stdin IH]; cbn [run];
    repeat first
      [ apply wrapped_show_full_dataset | apply wrapped_show_analytics
      | apply every_lift | apply every_emit; exact I | exact IH
      | apply every_bind; [|intros ?]
      | match goal with
        | |- every_event _ (if ?b then _ else _) => destruct b
        | |- every_event _ (let _ := _ in _) => cbv zeta
        end ].
Qed.

(** C8. The text of every error dialog is a text wrapped at width 60.
    The two handlers of the loader and the Table Presenter's no-data
    branch hand their message to [textwrap.fill] at width 60 and show the
    result; the Chart Suite shows its no-data text as written, and that
    text, 22 characters of words with single blanks, is what
    [textwrap.fill] at width 60 returns for it.  Hence in a whole
    session, whatever the file and the input, every dialog has the fixed
    title and a text that came out of the wrap at 60. *)
Theorem every_error_dialog_shows_a_text_wrapped_at_60 :
  (forall path s,
      read_csv path = FileNotFoundError ->
      events (read_file read_csv fill path s)
      = [ShowError error_title
           (fill (u "Файл '" ++ path
                  ++ u "' не найден. Проверь путь и повтори попытку.") 60)]) /\
  (forall path e s,
      read_csv path = OtherException e ->
      events (read_file read_csv fill path s)
      = [ShowError error_title
           (fill (u "Не удалось загрузить данные:" ++ [10%N] ++ e) 60)]) /\
  (forall d,
      empty d = true ->
      events (show_full_dataset fill (mkAnalyzer (Some d)))
      = [ShowError error_title (fill (u "Нет данных для отображения") 60)]) /\
  (forall d,
      empty d = true ->
      events (show_analytics (mkAnalyzer (Some d)))
      = [ShowError error_title (fill (u "Нет данных для анализа") 60)]) /\
  (forall stdin, Forall (wrapped fill) (events (main read_csv fill stdin))).
Proof.
  split; [|split; [|split; [|split]]].
  - intros path s H. unfold read_file. rewrite H. reflexivity.
  - intros path e s H. unfold read_file. rewrite H. reflexivity.
  - intros d He. rewrite (show_full_dataset_empty fill d He). reflexivity.
  - intros d He. rewrite (show_analytics_empty d He), no_data_for_analysis_fits.
    reflexivity.
  - intros stdin. unfold main.
    apply (every_bind (wrapped fill) (init read_csv fill default_path)
                      (fun _ => run fill stdin));
      [apply wrapped_init | intros _; apply wrapped_run].
Qed.

End Wrap.

Lemma error_dialogs_witness :
  (forall text, plain text = true -> length text <= 60 -> sample_fill text 60 = text) /\
  (forall path s,
      no_file path = FileNotFoundError ->
      events (read_file no_file sample_fill path s)
      = [ShowError error_title
           (sample_fill (u "Файл '" ++ path
                         ++ u "' не найден. Проверь путь и повтори попытку.") 60)]) /\
  (forall path e s,
      no_file path = OtherException e ->
      events (read_file no_file sample_fill path s)
      = [ShowError error_title
           (sample_fill (u "Не удалось загрузить данные:" ++ [10%N] ++ e) 60)]) /\
  (forall d,
      empty d = true ->
      events (show_full_dataset sample_fill (mkAnalyzer (Some d)))
      = [ShowError error_title (sample_fill (u "Нет данных для отображения") 60)]) /\
  (forall d,
      empty d = true ->
      events (show_analytics (mkAnalyzer (Some d)))
      = [ShowError error_title (sample_fill (u "Нет данных для анализа") 60)]) /\
  (forall stdin, Forall (wrapped sample_fill) (events (main no_file sample_fill stdin))).
Proof.
  split; [intros text _ H; apply (sample_fill_fits text 60 H)|].
  apply (every_error_dialog_shows_a_text_wrapped_at_60 no_file sample_fill).
  intros text _ H. apply (sample_fill_fits text 60 H).
Defined.
